(** * pg_aggregate: the system catalog of aggregate functions

    A shallow embedding of [src/include/catalog/pg_aggregate.h]: the
    [FormData_pg_aggregate] tuple layout, the [AGGKIND_] constants and the
    initial contents of the relation given by the [DATA(insert ...)]
    statements, followed by the consistency properties of those rows and by a
    small model of the execution contract for the COUNT and MAX aggregates. *)

From Stdlib Require Import ZArith List String Ascii Bool Lia Permutation.
Import ListNotations.

Local Open Scope string_scope.
Local Open Scope Z_scope.

(** ** Column types *)

(* An object identifier; 0 is InvalidOid. *)
Definition Oid := Z.

(* A regproc column holds the name of a pg_proc entry, as it is spelled in
   the DATA statements; the spelling "-" stands for "0 if none". *)
Definition regproc := string.

Definition InvalidProc : regproc := "-".

Definition InvalidOid : Oid := 0.

(** ** The tuple layout: CATALOG(pg_aggregate,2600) *)

Record FormData_pg_aggregate : Type := DATA {
  aggfnoid : Oid;                   (* pg_proc OID of the aggregate itself *)
  aggkind : ascii;                  (* aggregate kind, see AGGKIND_ below *)
  aggnumdirectargs : Z;             (* number of "direct" arguments *)
  aggtransfn : regproc;             (* transition function *)
  aggfinalfn : regproc;             (* final function (0 if none) *)
  aggcombinefn : regproc;           (* combine function (0 if none) *)
  aggserialfn : regproc;            (* transtype to bytea (0 if none) *)
  aggdeserialfn : regproc;          (* bytea to transtype (0 if none) *)
  aggmtransfn : regproc;            (* forward function, moving mode (0 if none) *)
  aggminvtransfn : regproc;         (* inverse function, moving mode (0 if none) *)
  aggmfinalfn : regproc;            (* final function, moving mode (0 if none) *)
  aggfinalextra : bool;             (* pass extra dummy arguments to aggfinalfn *)
  aggmfinalextra : bool;            (* pass extra dummy arguments to aggmfinalfn *)
  aggsortop : Oid;                  (* associated sort operator (0 if none) *)
  aggtranstype : Oid;               (* type of the transition (state) data *)
  aggtransspace : Z;                (* estimated size of state data *)
  aggmtranstype : Oid;              (* type of moving-aggregate state data (0 if none) *)
  aggmtransspace : Z;               (* estimated size of moving-agg state *)
  agginitval : option string;       (* initial value for transition state (can be NULL) *)
  aggminitval : option string       (* initial value for moving-agg state (can be NULL) *)
}.

Definition AggregateRelationId : Oid := 2600.

Definition Natts_pg_aggregate : Z := 20.

(** ** Symbolic values for the aggkind column *)

Definition AGGKIND_NORMAL : ascii := "n".

Definition AGGKIND_ORDERED_SET : ascii := "o".

Definition AGGKIND_HYPOTHETICAL : ascii := "h".

(* "ordered-set agg including hypothetical case" *)
Definition AGGKIND_IS_ORDERED_SET (kind : ascii) : bool :=
  negb (Ascii.eqb kind AGGKIND_NORMAL).

Definition AGGFNOID_COUNT_ANY : Oid := 2147.

Definition AGGFNOID_SUM_BIGINT : Oid := 2107.

(** Modelled from the spec: the type identifiers of pg_type.h, which this
    header uses by number only: the opaque pseudo-type "internal" is 2281,
    int8 is 20 and int4 is 23. *)
Definition INTERNALOID : Oid := 2281.

Definition INT8OID : Oid := 20.

Definition INT4OID : Oid := 23.

(** ** Presence of a function slot *)

Definition has_proc (p : regproc) : bool := negb (String.eqb p InvalidProc).

Definition present (p : regproc) : Prop := p <> InvalidProc.

Definition absent (p : regproc) : Prop := p = InvalidProc.

(** ** Initial contents of pg_aggregate *)

(* avg *)
Definition rows_avg : list FormData_pg_aggregate :=
  [ DATA 2100 "n"%char 0 "int8_avg_accum" "numeric_poly_avg" "int8_avg_combine" "int8_avg_serialize" "int8_avg_deserialize" "int8_avg_accum" "int8_avg_accum_inv" "numeric_poly_avg" false false 0 2281 48 2281 48 None None;
    DATA 2101 "n"%char 0 "int4_avg_accum" "int8_avg" "int4_avg_combine" "-" "-" "int4_avg_accum" "int4_avg_accum_inv" "int8_avg" false false 0 1016 0 1016 0 (Some "{0,0}") (Some "{0,0}");
    DATA 2102 "n"%char 0 "int2_avg_accum" "int8_avg" "int4_avg_combine" "-" "-" "int2_avg_accum" "int2_avg_accum_inv" "int8_avg" false false 0 1016 0 1016 0 (Some "{0,0}") (Some "{0,0}");
    DATA 2103 "n"%char 0 "numeric_avg_accum" "numeric_avg" "numeric_avg_combine" "numeric_avg_serialize" "numeric_avg_deserialize" "numeric_avg_accum" "numeric_accum_inv" "numeric_avg" false false 0 2281 128 2281 128 None None;
    DATA 2104 "n"%char 0 "float4_accum" "float8_avg" "float8_combine" "-" "-" "-" "-" "-" false false 0 1022 0 0 0 (Some "{0,0,0}") None;
    DATA 2105 "n"%char 0 "float8_accum" "float8_avg" "float8_combine" "-" "-" "-" "-" "-" false false 0 1022 0 0 0 (Some "{0,0,0}") None;
    DATA 2106 "n"%char 0 "interval_accum" "interval_avg" "interval_combine" "-" "-" "interval_accum" "interval_accum_inv" "interval_avg" false false 0 1187 0 1187 0 (Some "{0 second,0 second}") (Some "{0 second,0 second}") ].

(* sum *)
Definition rows_sum : list FormData_pg_aggregate :=
  [ DATA 2107 "n"%char 0 "int8_avg_accum" "numeric_poly_sum" "int8_avg_combine" "int8_avg_serialize" "int8_avg_deserialize" "int8_avg_accum" "int8_avg_accum_inv" "numeric_poly_sum" false false 0 2281 48 2281 48 None None;
    DATA 2108 "n"%char 0 "int4_sum" "-" "int8pl" "-" "-" "int4_avg_accum" "int4_avg_accum_inv" "int2int4_sum" false false 0 20 0 1016 0 None (Some "{0,0}");
    DATA 2109 "n"%char 0 "int2_sum" "-" "int8pl" "-" "-" "int2_avg_accum" "int2_avg_accum_inv" "int2int4_sum" false false 0 20 0 1016 0 None (Some "{0,0}");
    DATA 2110 "n"%char 0 "float4pl" "-" "float4pl" "-" "-" "-" "-" "-" false false 0 700 0 0 0 None None;
    DATA 2111 "n"%char 0 "float8pl" "-" "float8pl" "-" "-" "-" "-" "-" false false 0 701 0 0 0 None None;
    DATA 2112 "n"%char 0 "cash_pl" "-" "cash_pl" "-" "-" "cash_pl" "cash_mi" "-" false false 0 790 0 790 0 None None;
    DATA 2113 "n"%char 0 "interval_pl" "-" "interval_pl" "-" "-" "interval_pl" "interval_mi" "-" false false 0 1186 0 1186 0 None None;
    DATA 2114 "n"%char 0 "numeric_avg_accum" "numeric_sum" "numeric_avg_combine" "numeric_avg_serialize" "numeric_avg_deserialize" "numeric_avg_accum" "numeric_accum_inv" "numeric_sum" false false 0 2281 128 2281 128 None None ].

(* max *)
Definition rows_max : list FormData_pg_aggregate :=
  [ DATA 2115 "n"%char 0 "int8larger" "-" "int8larger" "-" "-" "-" "-" "-" false false 413 20 0 0 0 None None;
    DATA 2116 "n"%char 0 "int4larger" "-" "int4larger" "-" "-" "-" "-" "-" false false 521 23 0 0 0 None None;
    DATA 2117 "n"%char 0 "int2larger" "-" "int2larger" "-" "-" "-" "-" "-" false false 520 21 0 0 0 None None;
    DATA 2118 "n"%char 0 "oidlarger" "-" "oidlarger" "-" "-" "-" "-" "-" false false 610 26 0 0 0 None None;
    DATA 2119 "n"%char 0 "float4larger" "-" "float4larger" "-" "-" "-" "-" "-" false false 623 700 0 0 0 None None;
    DATA 2120 "n"%char 0 "float8larger" "-" "float8larger" "-" "-" "-" "-" "-" false false 674 701 0 0 0 None None;
    DATA 2121 "n"%char 0 "int4larger" "-" "int4larger" "-" "-" "-" "-" "-" false false 563 702 0 0 0 None None;
    DATA 2122 "n"%char 0 "date_larger" "-" "date_larger" "-" "-" "-" "-" "-" false false 1097 1082 0 0 0 None None;
    DATA 2123 "n"%char 0 "time_larger" "-" "time_larger" "-" "-" "-" "-" "-" false false 1112 1083 0 0 0 None None;
    DATA 2124 "n"%char 0 "timetz_larger" "-" "timetz_larger" "-" "-" "-" "-" "-" false false 1554 1266 0 0 0 None None;
    DATA 2125 "n"%char 0 "cashlarger" "-" "cashlarger" "-" "-" "-" "-" "-" false false 903 790 0 0 0 None None;
    DATA 2126 "n"%char 0 "timestamp_larger" "-" "timestamp_larger" "-" "-" "-" "-" "-" false false 2064 1114 0 0 0 None None;
    DATA 2127 "n"%char 0 "timestamptz_larger" "-" "timestamptz_larger" "-" "-" "-" "-" "-" false false 1324 1184 0 0 0 None None;
    DATA 2128 "n"%char 0 "interval_larger" "-" "interval_larger" "-" "-" "-" "-" "-" false false 1334 1186 0 0 0 None None;
    DATA 2129 "n"%char 0 "text_larger" "-" "text_larger" "-" "-" "-" "-" "-" false false 666 25 0 0 0 None None;
    DATA 2130 "n"%char 0 "numeric_larger" "-" "numeric_larger" "-" "-" "-" "-" "-" false false 1756 1700 0 0 0 None None;
    DATA 2050 "n"%char 0 "array_larger" "-" "array_larger" "-" "-" "-" "-" "-" false false 1073 2277 0 0 0 None None;
    DATA 2244 "n"%char 0 "bpchar_larger" "-" "bpchar_larger" "-" "-" "-" "-" "-" false false 1060 1042 0 0 0 None None;
    DATA 2797 "n"%char 0 "tidlarger" "-" "tidlarger" "-" "-" "-" "-" "-" false false 2800 27 0 0 0 None None;
    DATA 3526 "n"%char 0 "enum_larger" "-" "enum_larger" "-" "-" "-" "-" "-" false false 3519 3500 0 0 0 None None ].

(* min *)
Definition rows_min : list FormData_pg_aggregate :=
  [ DATA 2131 "n"%char 0 "int8smaller" "-" "int8smaller" "-" "-" "-" "-" "-" false false 412 20 0 0 0 None None;
    DATA 2132 "n"%char 0 "int4smaller" "-" "int4smaller" "-" "-" "-" "-" "-" false false 97 23 0 0 0 None None;
    DATA 2133 "n"%char 0 "int2smaller" "-" "int2smaller" "-" "-" "-" "-" "-" false false 95 21 0 0 0 None None;
    DATA 2134 "n"%char 0 "oidsmaller" "-" "oidsmaller" "-" "-" "-" "-" "-" false false 609 26 0 0 0 None None;
    DATA 2135 "n"%char 0 "float4smaller" "-" "float4smaller" "-" "-" "-" "-" "-" false false 622 700 0 0 0 None None;
    DATA 2136 "n"%char 0 "float8smaller" "-" "float8smaller" "-" "-" "-" "-" "-" false false 672 701 0 0 0 None None;
    DATA 2137 "n"%char 0 "int4smaller" "-" "int4smaller" "-" "-" "-" "-" "-" false false 562 702 0 0 0 None None;
    DATA 2138 "n"%char 0 "date_smaller" "-" "date_smaller" "-" "-" "-" "-" "-" false false 1095 1082 0 0 0 None None;
    DATA 2139 "n"%char 0 "time_smaller" "-" "time_smaller" "-" "-" "-" "-" "-" false false 1110 1083 0 0 0 None None;
    DATA 2140 "n"%char 0 "timetz_smaller" "-" "timetz_smaller" "-" "-" "-" "-" "-" false false 1552 1266 0 0 0 None None;
    DATA 2141 "n"%char 0 "cashsmaller" "-" "cashsmaller" "-" "-" "-" "-" "-" false false 902 790 0 0 0 None None;
    DATA 2142 "n"%char 0 "timestamp_smaller" "-" "timestamp_smaller" "-" "-" "-" "-" "-" false false 2062 1114 0 0 0 None None;
    DATA 2143 "n"%char 0 "timestamptz_smaller" "-" "timestamptz_smaller" "-" "-" "-" "-" "-" false false 1322 1184 0 0 0 None None;
    DATA 2144 "n"%char 0 "interval_smaller" "-" "interval_smaller" "-" "-" "-" "-" "-" false false 1332 1186 0 0 0 None None;
    DATA 2145 "n"%char 0 "text_smaller" "-" "text_smaller" "-" "-" "-" "-" "-" false false 664 25 0 0 0 None None;
    DATA 2146 "n"%char 0 "numeric_smaller" "-" "numeric_smaller" "-" "-" "-" "-" "-" false false 1754 1700 0 0 0 None None;
    DATA 2051 "n"%char 0 "array_smaller" "-" "array_smaller" "-" "-" "-" "-" "-" false false 1072 2277 0 0 0 None None;
    DATA 2245 "n"%char 0 "bpchar_smaller" "-" "bpchar_smaller" "-" "-" "-" "-" "-" false false 1058 1042 0 0 0 None None;
    DATA 2798 "n"%char 0 "tidsmaller" "-" "tidsmaller" "-" "-" "-" "-" "-" false false 2799 27 0 0 0 None None;
    DATA 3527 "n"%char 0 "enum_smaller" "-" "enum_smaller" "-" "-" "-" "-" "-" false false 3518 3500 0 0 0 None None ].

(* count *)
Definition rows_count : list FormData_pg_aggregate :=
  [ DATA 2147 "n"%char 0 "int8inc_any" "-" "int8pl" "-" "-" "int8inc_any" "int8dec_any" "-" false false 0 20 0 20 0 (Some "0") (Some "0");
    DATA 2803 "n"%char 0 "int8inc" "-" "int8pl" "-" "-" "int8inc" "int8dec" "-" false false 0 20 0 20 0 (Some "0") (Some "0") ].

(* var_pop *)
Definition rows_var_pop : list FormData_pg_aggregate :=
  [ DATA 2718 "n"%char 0 "int8_accum" "numeric_var_pop" "numeric_combine" "numeric_serialize" "numeric_deserialize" "int8_accum" "int8_accum_inv" "numeric_var_pop" false false 0 2281 128 2281 128 None None;
    DATA 2719 "n"%char 0 "int4_accum" "numeric_poly_var_pop" "numeric_poly_combine" "numeric_poly_serialize" "numeric_poly_deserialize" "int4_accum" "int4_accum_inv" "numeric_poly_var_pop" false false 0 2281 48 2281 48 None None;
    DATA 2720 "n"%char 0 "int2_accum" "numeric_poly_var_pop" "numeric_poly_combine" "numeric_poly_serialize" "numeric_poly_deserialize" "int2_accum" "int2_accum_inv" "numeric_poly_var_pop" false false 0 2281 48 2281 48 None None;
    DATA 2721 "n"%char 0 "float4_accum" "float8_var_pop" "float8_combine" "-" "-" "-" "-" "-" false false 0 1022 0 0 0 (Some "{0,0,0}") None;
    DATA 2722 "n"%char 0 "float8_accum" "float8_var_pop" "float8_combine" "-" "-" "-" "-" "-" false false 0 1022 0 0 0 (Some "{0,0,0}") None;
    DATA 2723 "n"%char 0 "numeric_accum" "numeric_var_pop" "numeric_combine" "numeric_serialize" "numeric_deserialize" "numeric_accum" "numeric_accum_inv" "numeric_var_pop" false false 0 2281 128 2281 128 None None ].

(* var_samp *)
Definition rows_var_samp : list FormData_pg_aggregate :=
  [ DATA 2641 "n"%char 0 "int8_accum" "numeric_var_samp" "numeric_combine" "numeric_serialize" "numeric_deserialize" "int8_accum" "int8_accum_inv" "numeric_var_samp" false false 0 2281 128 2281 128 None None;
    DATA 2642 "n"%char 0 "int4_accum" "numeric_poly_var_samp" "numeric_poly_combine" "numeric_poly_serialize" "numeric_poly_deserialize" "int4_accum" "int4_accum_inv" "numeric_poly_var_samp" false false 0 2281 48 2281 48 None None;
    DATA 2643 "n"%char 0 "int2_accum" "numeric_poly_var_samp" "numeric_poly_combine" "numeric_poly_serialize" "numeric_poly_deserialize" "int2_accum" "int2_accum_inv" "numeric_poly_var_samp" false false 0 2281 48 2281 48 None None;
    DATA 2644 "n"%char 0 "float4_accum" "float8_var_samp" "float8_combine" "-" "-" "-" "-" "-" false false 0 1022 0 0 0 (Some "{0,0,0}") None;
    DATA 2645 "n"%char 0 "float8_accum" "float8_var_samp" "float8_combine" "-" "-" "-" "-" "-" false false 0 1022 0 0 0 (Some "{0,0,0}") None;
    DATA 2646 "n"%char 0 "numeric_accum" "numeric_var_samp" "numeric_combine" "numeric_serialize" "numeric_deserialize" "numeric_accum" "numeric_accum_inv" "numeric_var_samp" false false 0 2281 128 2281 128 None None ].

(* variance: historical Postgres syntax for var_samp *)
Definition rows_variance : list FormData_pg_aggregate :=
  [ DATA 2148 "n"%char 0 "int8_accum" "numeric_var_samp" "numeric_combine" "numeric_serialize" "numeric_deserialize" "int8_accum" "int8_accum_inv" "numeric_var_samp" false false 0 2281 128 2281 128 None None;
    DATA 2149 "n"%char 0 "int4_accum" "numeric_poly_var_samp" "numeric_poly_combine" "numeric_poly_serialize" "numeric_poly_deserialize" "int4_accum" "int4_accum_inv" "numeric_poly_var_samp" false false 0 2281 48 2281 48 None None;
    DATA 2150 "n"%char 0 "int2_accum" "numeric_poly_var_samp" "numeric_poly_combine" "numeric_poly_serialize" "numeric_poly_deserialize" "int2_accum" "int2_accum_inv" "numeric_poly_var_samp" false false 0 2281 48 2281 48 None None;
    DATA 2151 "n"%char 0 "float4_accum" "float8_var_samp" "float8_combine" "-" "-" "-" "-" "-" false false 0 1022 0 0 0 (Some "{0,0,0}") None;
    DATA 2152 "n"%char 0 "float8_accum" "float8_var_samp" "float8_combine" "-" "-" "-" "-" "-" false false 0 1022 0 0 0 (Some "{0,0,0}") None;
    DATA 2153 "n"%char 0 "numeric_accum" "numeric_var_samp" "numeric_combine" "numeric_serialize" "numeric_deserialize" "numeric_accum" "numeric_accum_inv" "numeric_var_samp" false false 0 2281 128 2281 128 None None ].

(* stddev_pop *)
Definition rows_stddev_pop : list FormData_pg_aggregate :=
  [ DATA 2724 "n"%char 0 "int8_accum" "numeric_stddev_pop" "numeric_combine" "numeric_serialize" "numeric_deserialize" "int8_accum" "int8_accum_inv" "numeric_stddev_pop" false false 0 2281 128 2281 128 None None;
    DATA 2725 "n"%char 0 "int4_accum" "numeric_poly_stddev_pop" "numeric_poly_combine" "numeric_poly_serialize" "numeric_poly_deserialize" "int4_accum" "int4_accum_inv" "numeric_poly_stddev_pop" false false 0 2281 48 2281 48 None None;
    DATA 2726 "n"%char 0 "int2_accum" "numeric_poly_stddev_pop" "numeric_poly_combine" "numeric_poly_serialize" "numeric_poly_deserialize" "int2_accum" "int2_accum_inv" "numeric_poly_stddev_pop" false false 0 2281 48 2281 48 None None;
    DATA 2727 "n"%char 0 "float4_accum" "float8_stddev_pop" "float8_combine" "-" "-" "-" "-" "-" false false 0 1022 0 0 0 (Some "{0,0,0}") None;
    DATA 2728 "n"%char 0 "float8_accum" "float8_stddev_pop" "float8_combine" "-" "-" "-" "-" "-" false false 0 1022 0 0 0 (Some "{0,0,0}") None;
    DATA 2729 "n"%char 0 "numeric_accum" "numeric_stddev_pop" "numeric_combine" "numeric_serialize" "numeric_deserialize" "numeric_accum" "numeric_accum_inv" "numeric_stddev_pop" false false 0 2281 128 2281 128 None None ].

(* stddev_samp *)
Definition rows_stddev_samp : list FormData_pg_aggregate :=
  [ DATA 2712 "n"%char 0 "int8_accum" "numeric_stddev_samp" "numeric_combine" "numeric_serialize" "numeric_deserialize" "int8_accum" "int8_accum_inv" "numeric_stddev_samp" false false 0 2281 128 2281 128 None None;
    DATA 2713 "n"%char 0 "int4_accum" "numeric_poly_stddev_samp" "numeric_poly_combine" "numeric_poly_serialize" "numeric_poly_deserialize" "int4_accum" "int4_accum_inv" "numeric_poly_stddev_samp" false false 0 2281 48 2281 48 None None;
    DATA 2714 "n"%char 0 "int2_accum" "numeric_poly_stddev_samp" "numeric_poly_combine" "numeric_poly_serialize" "numeric_poly_deserialize" "int2_accum" "int2_accum_inv" "numeric_poly_stddev_samp" false false 0 2281 48 2281 48 None None;
    DATA 2715 "n"%char 0 "float4_accum" "float8_stddev_samp" "float8_combine" "-" "-" "-" "-" "-" false false 0 1022 0 0 0 (Some "{0,0,0}") None;
    DATA 2716 "n"%char 0 "float8_accum" "float8_stddev_samp" "float8_combine" "-" "-" "-" "-" "-" false false 0 1022 0 0 0 (Some "{0,0,0}") None;
    DATA 2717 "n"%char 0 "numeric_accum" "numeric_stddev_samp" "numeric_combine" "numeric_serialize" "numeric_deserialize" "numeric_accum" "numeric_accum_inv" "numeric_stddev_samp" false false 0 2281 128 2281 128 None None ].

(* stddev: historical Postgres syntax for stddev_samp *)
Definition rows_stddev : list FormData_pg_aggregate :=
  [ DATA 2154 "n"%char 0 "int8_accum" "numeric_stddev_samp" "numeric_combine" "numeric_serialize" "numeric_deserialize" "int8_accum" "int8_accum_inv" "numeric_stddev_samp" false false 0 2281 128 2281 128 None None;
    DATA 2155 "n"%char 0 "int4_accum" "numeric_poly_stddev_samp" "numeric_poly_combine" "numeric_poly_serialize" "numeric_poly_deserialize" "int4_accum" "int4_accum_inv" "numeric_poly_stddev_samp" false false 0 2281 48 2281 48 None None;
    DATA 2156 "n"%char 0 "int2_accum" "numeric_poly_stddev_samp" "numeric_poly_combine" "numeric_poly_serialize" "numeric_poly_deserialize" "int2_accum" "int2_accum_inv" "numeric_poly_stddev_samp" false false 0 2281 48 2281 48 None None;
    DATA 2157 "n"%char 0 "float4_accum" "float8_stddev_samp" "float8_combine" "-" "-" "-" "-" "-" false false 0 1022 0 0 0 (Some "{0,0,0}") None;
    DATA 2158 "n"%char 0 "float8_accum" "float8_stddev_samp" "float8_combine" "-" "-" "-" "-" "-" false false 0 1022 0 0 0 (Some "{0,0,0}") None;
    DATA 2159 "n"%char 0 "numeric_accum" "numeric_stddev_samp" "numeric_combine" "numeric_serialize" "numeric_deserialize" "numeric_accum" "numeric_accum_inv" "numeric_stddev_samp" false false 0 2281 128 2281 128 None None ].

(* SQL2003 binary regression aggregates *)
Definition rows_regression : list FormData_pg_aggregate :=
  [ DATA 2818 "n"%char 0 "int8inc_float8_float8" "-" "int8pl" "-" "-" "-" "-" "-" false false 0 20 0 0 0 (Some "0") None;
    DATA 2819 "n"%char 0 "float8_regr_accum" "float8_regr_sxx" "float8_regr_combine" "-" "-" "-" "-" "-" false false 0 1022 0 0 0 (Some "{0,0,0,0,0,0}") None;
    DATA 2820 "n"%char 0 "float8_regr_accum" "float8_regr_syy" "float8_regr_combine" "-" "-" "-" "-" "-" false false 0 1022 0 0 0 (Some "{0,0,0,0,0,0}") None;
    DATA 2821 "n"%char 0 "float8_regr_accum" "float8_regr_sxy" "float8_regr_combine" "-" "-" "-" "-" "-" false false 0 1022 0 0 0 (Some "{0,0,0,0,0,0}") None;
    DATA 2822 "n"%char 0 "float8_regr_accum" "float8_regr_avgx" "float8_regr_combine" "-" "-" "-" "-" "-" false false 0 1022 0 0 0 (Some "{0,0,0,0,0,0}") None;
    DATA 2823 "n"%char 0 "float8_regr_accum" "float8_regr_avgy" "float8_regr_combine" "-" "-" "-" "-" "-" false false 0 1022 0 0 0 (Some "{0,0,0,0,0,0}") None;
    DATA 2824 "n"%char 0 "float8_regr_accum" "float8_regr_r2" "float8_regr_combine" "-" "-" "-" "-" "-" false false 0 1022 0 0 0 (Some "{0,0,0,0,0,0}") None;
    DATA 2825 "n"%char 0 "float8_regr_accum" "float8_regr_slope" "float8_regr_combine" "-" "-" "-" "-" "-" false false 0 1022 0 0 0 (Some "{0,0,0,0,0,0}") None;
    DATA 2826 "n"%char 0 "float8_regr_accum" "float8_regr_intercept" "float8_regr_combine" "-" "-" "-" "-" "-" false false 0 1022 0 0 0 (Some "{0,0,0,0,0,0}") None;
    DATA 2827 "n"%char 0 "float8_regr_accum" "float8_covar_pop" "float8_regr_combine" "-" "-" "-" "-" "-" false false 0 1022 0 0 0 (Some "{0,0,0,0,0,0}") None;
    DATA 2828 "n"%char 0 "float8_regr_accum" "float8_covar_samp" "float8_regr_combine" "-" "-" "-" "-" "-" false false 0 1022 0 0 0 (Some "{0,0,0,0,0,0}") None;
    DATA 2829 "n"%char 0 "float8_regr_accum" "float8_corr" "float8_regr_combine" "-" "-" "-" "-" "-" false false 0 1022 0 0 0 (Some "{0,0,0,0,0,0}") None ].

(* boolean-and and boolean-or *)
Definition rows_boolean : list FormData_pg_aggregate :=
  [ DATA 2517 "n"%char 0 "booland_statefunc" "-" "booland_statefunc" "-" "-" "bool_accum" "bool_accum_inv" "bool_alltrue" false false 58 16 0 2281 16 None None;
    DATA 2518 "n"%char 0 "boolor_statefunc" "-" "boolor_statefunc" "-" "-" "bool_accum" "bool_accum_inv" "bool_anytrue" false false 59 16 0 2281 16 None None;
    DATA 2519 "n"%char 0 "booland_statefunc" "-" "booland_statefunc" "-" "-" "bool_accum" "bool_accum_inv" "bool_alltrue" false false 58 16 0 2281 16 None None ].

(* bitwise integer *)
Definition rows_bitwise : list FormData_pg_aggregate :=
  [ DATA 2236 "n"%char 0 "int2and" "-" "int2and" "-" "-" "-" "-" "-" false false 0 21 0 0 0 None None;
    DATA 2237 "n"%char 0 "int2or" "-" "int2or" "-" "-" "-" "-" "-" false false 0 21 0 0 0 None None;
    DATA 2238 "n"%char 0 "int4and" "-" "int4and" "-" "-" "-" "-" "-" false false 0 23 0 0 0 None None;
    DATA 2239 "n"%char 0 "int4or" "-" "int4or" "-" "-" "-" "-" "-" false false 0 23 0 0 0 None None;
    DATA 2240 "n"%char 0 "int8and" "-" "int8and" "-" "-" "-" "-" "-" false false 0 20 0 0 0 None None;
    DATA 2241 "n"%char 0 "int8or" "-" "int8or" "-" "-" "-" "-" "-" false false 0 20 0 0 0 None None;
    DATA 2242 "n"%char 0 "bitand" "-" "bitand" "-" "-" "-" "-" "-" false false 0 1560 0 0 0 None None;
    DATA 2243 "n"%char 0 "bitor" "-" "bitor" "-" "-" "-" "-" "-" false false 0 1560 0 0 0 None None ].

(* MPP Aggregate -- array_sum -- special for prospective customer. *)
Definition rows_array_sum : list FormData_pg_aggregate :=
  [ DATA 6013 "n"%char 0 "array_add" "-" "array_add" "-" "-" "-" "-" "-" false false 0 1007 0 0 0 (Some "{}") None ].

(* sum over arrays *)
Definition rows_sum_array : list FormData_pg_aggregate :=
  [ DATA 6216 "n"%char 0 "int2_matrix_accum" "-" "int8_matrix_accum" "-" "-" "-" "-" "-" false false 0 1016 0 0 0 None None;
    DATA 6217 "n"%char 0 "int4_matrix_accum" "-" "int8_matrix_accum" "-" "-" "-" "-" "-" false false 0 1016 0 0 0 None None;
    DATA 6218 "n"%char 0 "int8_matrix_accum" "-" "int8_matrix_accum" "-" "-" "-" "-" "-" false false 0 1016 0 0 0 None None;
    DATA 6219 "n"%char 0 "float8_matrix_accum" "-" "float8_matrix_accum" "-" "-" "-" "-" "-" false false 0 1022 0 0 0 None None ].

(* pivot_sum *)
Definition rows_pivot_sum : list FormData_pg_aggregate :=
  [ DATA 6226 "n"%char 0 "int4_pivot_accum" "-" "int8_matrix_accum" "-" "-" "-" "-" "-" false false 0 1007 0 0 0 None None;
    DATA 6228 "n"%char 0 "int8_pivot_accum" "-" "int8_matrix_accum" "-" "-" "-" "-" "-" false false 0 1016 0 0 0 None None;
    DATA 6230 "n"%char 0 "float8_pivot_accum" "-" "float8_matrix_accum" "-" "-" "-" "-" "-" false false 0 1022 0 0 0 None None ].

(* xml *)
Definition rows_xml : list FormData_pg_aggregate :=
  [ DATA 2901 "n"%char 0 "xmlconcat2" "-" "-" "-" "-" "-" "-" "-" false false 0 142 0 0 0 None None ].

(* array *)
Definition rows_array : list FormData_pg_aggregate :=
  [ DATA 2335 "n"%char 0 "array_agg_transfn" "array_agg_finalfn" "-" "-" "-" "-" "-" "-" true false 0 2281 0 0 0 None None ].

(* ordered-set and hypothetical-set aggregates *)
Definition rows_ordered_set : list FormData_pg_aggregate :=
  [ DATA 3972 "o"%char 1 "ordered_set_transition" "percentile_disc_final" "-" "-" "-" "-" "-" "-" true false 0 2281 0 0 0 None None;
    DATA 3974 "o"%char 1 "ordered_set_transition" "percentile_cont_float8_final" "-" "-" "-" "-" "-" "-" false false 0 2281 0 0 0 None None;
    DATA 3976 "o"%char 1 "ordered_set_transition" "percentile_cont_interval_final" "-" "-" "-" "-" "-" "-" false false 0 2281 0 0 0 None None;
    DATA 3978 "o"%char 1 "ordered_set_transition" "percentile_disc_multi_final" "-" "-" "-" "-" "-" "-" true false 0 2281 0 0 0 None None;
    DATA 3980 "o"%char 1 "ordered_set_transition" "percentile_cont_float8_multi_final" "-" "-" "-" "-" "-" "-" false false 0 2281 0 0 0 None None;
    DATA 3982 "o"%char 1 "ordered_set_transition" "percentile_cont_interval_multi_final" "-" "-" "-" "-" "-" "-" false false 0 2281 0 0 0 None None;
    DATA 3984 "o"%char 0 "ordered_set_transition" "mode_final" "-" "-" "-" "-" "-" "-" true false 0 2281 0 0 0 None None;
    DATA 3986 "h"%char 1 "ordered_set_transition_multi" "rank_final" "-" "-" "-" "-" "-" "-" true false 0 2281 0 0 0 None None;
    DATA 3988 "h"%char 1 "ordered_set_transition_multi" "percent_rank_final" "-" "-" "-" "-" "-" "-" true false 0 2281 0 0 0 None None;
    DATA 3990 "h"%char 1 "ordered_set_transition_multi" "cume_dist_final" "-" "-" "-" "-" "-" "-" true false 0 2281 0 0 0 None None;
    DATA 3992 "h"%char 1 "ordered_set_transition_multi" "dense_rank_final" "-" "-" "-" "-" "-" "-" true false 0 2281 0 0 0 None None ].

(* GPDB: additional variants of percentile_cont, for timestamps *)
Definition rows_percentile_cont_timestamps : list FormData_pg_aggregate :=
  [ DATA 6119 "o"%char 1 "ordered_set_transition" "percentile_cont_timestamp_final" "-" "-" "-" "-" "-" "-" false false 0 2281 0 0 0 None None;
    DATA 6121 "o"%char 1 "ordered_set_transition" "percentile_cont_timestamp_multi_final" "-" "-" "-" "-" "-" "-" false false 0 2281 0 0 0 None None;
    DATA 6123 "o"%char 1 "ordered_set_transition" "percentile_cont_timestamptz_final" "-" "-" "-" "-" "-" "-" false false 0 2281 0 0 0 None None;
    DATA 6125 "o"%char 1 "ordered_set_transition" "percentile_cont_timestamptz_multi_final" "-" "-" "-" "-" "-" "-" false false 0 2281 0 0 0 None None ].

(* median *)
Definition rows_median : list FormData_pg_aggregate :=
  [ DATA 6127 "o"%char 1 "ordered_set_transition" "percentile_cont_float8_final" "-" "-" "-" "-" "-" "-" false false 0 2281 0 0 0 None None;
    DATA 6128 "o"%char 1 "ordered_set_transition" "percentile_cont_interval_final" "-" "-" "-" "-" "-" "-" false false 0 2281 0 0 0 None None;
    DATA 6129 "o"%char 1 "ordered_set_transition" "percentile_cont_timestamp_final" "-" "-" "-" "-" "-" "-" false false 0 2281 0 0 0 None None;
    DATA 6130 "o"%char 1 "ordered_set_transition" "percentile_cont_timestamptz_final" "-" "-" "-" "-" "-" "-" false false 0 2281 0 0 0 None None ].

(* text *)
Definition rows_text : list FormData_pg_aggregate :=
  [ DATA 3538 "n"%char 0 "string_agg_transfn" "string_agg_finalfn" "-" "-" "-" "-" "-" "-" false false 0 2281 0 0 0 None None ].

(* bytea *)
Definition rows_bytea : list FormData_pg_aggregate :=
  [ DATA 3545 "n"%char 0 "bytea_string_agg_transfn" "bytea_string_agg_finalfn" "-" "-" "-" "-" "-" "-" false false 0 2281 0 0 0 None None ].

(* hyperloglog *)
Definition rows_hyperloglog : list FormData_pg_aggregate :=
  [ DATA 7164 "n"%char 0 "gp_hyperloglog_add_item_agg_default" "gp_hyperloglog_comp" "gp_hyperloglog_merge" "-" "-" "-" "-" "-" false false 0 7157 0 0 0 None None ].

(* json *)
Definition rows_json : list FormData_pg_aggregate :=
  [ DATA 3175 "n"%char 0 "json_agg_transfn" "json_agg_finalfn" "-" "-" "-" "-" "-" "-" false false 0 2281 0 0 0 None None;
    DATA 3197 "n"%char 0 "json_object_agg_transfn" "json_object_agg_finalfn" "-" "-" "-" "-" "-" "-" false false 0 2281 0 0 0 None None ].

(* initial contents of pg_aggregate, in the order of the DATA statements *)
Definition catalog : list FormData_pg_aggregate :=
  rows_avg
  ++ rows_sum
  ++ rows_max
  ++ rows_min
  ++ rows_count
  ++ rows_var_pop
  ++ rows_var_samp
  ++ rows_variance
  ++ rows_stddev_pop
  ++ rows_stddev_samp
  ++ rows_stddev
  ++ rows_regression
  ++ rows_boolean
  ++ rows_bitwise
  ++ rows_array_sum
  ++ rows_sum_array
  ++ rows_pivot_sum
  ++ rows_xml
  ++ rows_array
  ++ rows_ordered_set
  ++ rows_percentile_cont_timestamps
  ++ rows_median
  ++ rows_text
  ++ rows_bytea
  ++ rows_hyperloglog
  ++ rows_json.

(* lookupAggregate: the row registered for an aggregate, by its pg_proc OID *)
Definition lookupAggregate (fnoid : Oid) : option FormData_pg_aggregate :=
  find (fun r => aggfnoid r =? fnoid) catalog.


(** ** Row-level consistency checks

    Each check is a boolean function of one row, so that it can be run over
    the whole catalog. *)

Definition is_mode (r : FormData_pg_aggregate) : bool := aggfnoid r =? 3984.

Definition directargs_shape (r : FormData_pg_aggregate) : bool :=
  Bool.eqb (aggnumdirectargs r =? 0)
           (negb (AGGKIND_IS_ORDERED_SET (aggkind r)) || is_mode r)
  && implb (Ascii.eqb (aggkind r) AGGKIND_HYPOTHETICAL)
           (negb (aggnumdirectargs r =? 0)).

Definition moving_pair_shape (r : FormData_pg_aggregate) : bool :=
  Bool.eqb (has_proc (aggmtransfn r)) (has_proc (aggminvtransfn r))
  && implb (has_proc (aggmfinalfn r)) (has_proc (aggmtransfn r)).

Definition moving_set_complete (r : FormData_pg_aggregate) : bool :=
  Bool.eqb (has_proc (aggmtransfn r)) (has_proc (aggminvtransfn r))
  && Bool.eqb (has_proc (aggminvtransfn r)) (has_proc (aggmfinalfn r)).

Definition is_bitwise (r : FormData_pg_aggregate) : bool :=
  (2236 <=? aggfnoid r) && (aggfnoid r <=? 2243).

Definition no_moving_set (r : FormData_pg_aggregate) : bool :=
  negb (has_proc (aggmtransfn r)) && negb (has_proc (aggminvtransfn r))
  && negb (has_proc (aggmfinalfn r)).

Definition bitwise_shape (r : FormData_pg_aggregate) : bool :=
  implb (has_proc (aggmtransfn r)) (has_proc (aggminvtransfn r))
  && implb (is_bitwise r)
       (no_moving_set r && String.eqb (aggcombinefn r) (aggtransfn r)
        && has_proc (aggcombinefn r)).

Definition serial_pair_shape (r : FormData_pg_aggregate) : bool :=
  Bool.eqb (has_proc (aggserialfn r)) (has_proc (aggdeserialfn r)).

Definition serial_needs_internal (r : FormData_pg_aggregate) : bool :=
  implb (has_proc (aggserialfn r) || has_proc (aggdeserialfn r))
        (aggtranstype r =? INTERNALOID).

Definition ordered_set_plain (r : FormData_pg_aggregate) : bool :=
  implb (AGGKIND_IS_ORDERED_SET (aggkind r))
        (negb (has_proc (aggcombinefn r))
         && negb (has_proc (aggserialfn r)) && negb (has_proc (aggdeserialfn r))
         && no_moving_set r).

Definition has_text (t : option string) : bool :=
  match t with Some _ => true | None => false end.

Definition moving_state_shape (r : FormData_pg_aggregate) : bool :=
  Bool.eqb (negb (aggmtranstype r =? InvalidOid)) (has_proc (aggmtransfn r))
  && implb (has_text (aggminitval r)) (has_proc (aggmtransfn r)).

(** ** The callbacks named by the COUNT and MAX rows

    The rows name their callbacks; the functions themselves live in the
    backend's utils/adt directory, outside this header. *)

Definition INT64_MIN : Z := - 2 ^ 63.

Definition INT64_MAX : Z := 2 ^ 63 - 1.

(* The value of a 64-bit two's complement integer after an arithmetic
   operation whose exact result is [z]. *)
Definition wrap64 (z : Z) : Z := (z + 2 ^ 63) mod 2 ^ 64 - 2 ^ 63.

(** Modelled from the spec: the combine function of the COUNT rows, 64-bit
    integer addition of two partial states. *)
Definition int8pl (a b : Z) : Z := wrap64 (a + b).

(** Modelled from the spec: the same addition for a callback that raises an
    error instead of wrapping (a callback may fail, and its failure aborts
    the aggregation); [None] is the raised error. *)
Definition int8pl_checked (a b : Z) : option Z :=
  if (INT64_MIN <=? a + b) && (a + b <=? INT64_MAX) then Some (a + b)
  else None.

(* Combining two partial states when an earlier combination may have failed. *)
Definition combine_checked (x y : option Z) : option Z :=
  match x, y with
  | Some a, Some b => int8pl_checked a b
  | _, _ => None
  end.

(** Modelled from the spec: the transition function of the
    zero-argument count, which
    increments the int8 state by 1 for every row. *)
Definition int8inc (s : Z) : Z := wrap64 (s + 1).

(** Modelled from the spec: the transition function of the
    one-argument count, which
    increments the state by 1 for every (non-null) input value. *)
Definition int8inc_any (s : Z) (_ : Z) : Z := int8inc s.

(** Modelled from the spec: the transition function of a MAX-style
    aggregate, which keeps the greater of the state and the input. *)
Definition int4larger (a b : Z) : Z := if a >? b then a else b.

(** Modelled from the spec: the int8 variant of the MAX transition. *)
Definition int8larger (a b : Z) : Z := if a >? b then a else b.

(** Modelled from the spec: the function-resolution collaborator, restricted
    to the two-argument callbacks (state, input) or (state, state) that the
    COUNT and MAX rows name. *)
Definition fmgr_builtin (p : regproc) : option (Z -> Z -> Z) :=
  if String.eqb p "int8inc" then Some (fun s _ => int8inc s)
  else if String.eqb p "int8inc_any" then Some int8inc_any
  else if String.eqb p "int8pl" then Some int8pl
  else if String.eqb p "int4larger" then Some int4larger
  else if String.eqb p "int8larger" then Some int8larger
  else None.

(** *** The literal parser of the integer state types *)

Definition digit_of (c : ascii) : option Z :=
  let n := Z.of_nat (nat_of_ascii c) in
  if (48 <=? n) && (n <=? 57) then Some (n - 48) else None.

Fixpoint digits (s : string) (acc : Z) : option Z :=
  match s with
  | EmptyString => Some acc
  | String c s' =>
      match digit_of c with
      | Some d => digits s' (10 * acc + d)
      | None => None
      end
  end.

(** Modelled from the spec: the literal parser of int8, through which a
    textual initial value is read: an optional sign and decimal digits,
    rejected when out of range. *)
Definition int8in (s : string) : option Z :=
  let in_range (z : Z) :=
    if (INT64_MIN <=? z) && (z <=? INT64_MAX) then Some z else None in
  match s with
  | EmptyString => None
  | String "-"%char EmptyString => None
  | String "-"%char s' =>
      match digits s' 0 with Some z => in_range (- z) | None => None end
  | _ => match digits s 0 with Some z => in_range z | None => None end
  end.

(** ** The execution contract (Transition State Model and Strategy Selector) *)

(* A definition whose callbacks have been resolved. *)
Record AggregateDefinition : Type := {
  transitionFn : Z -> Z -> Z;
  finalFn : option (Z -> Z);
  combineFn : option (Z -> Z -> Z);
  initialValue : option Z
}.

(* A transition state; [None] is the unseeded state. *)
Definition TransState := option Z.

(** Modelled from the spec: binding a catalog row to its callbacks.  Only
    Normal aggregates over an int8 or int4 state without a final function
    are bound; the initial value is parsed by the state type's parser. *)
Definition bind_row (r : FormData_pg_aggregate) : option AggregateDefinition :=
  if AGGKIND_IS_ORDERED_SET (aggkind r) then None
  else if has_proc (aggfinalfn r) then None
  else if negb ((aggtranstype r =? INT8OID) || (aggtranstype r =? INT4OID))
  then None
  else
    match fmgr_builtin (aggtransfn r) with
    | None => None
    | Some tf =>
        let cf := if has_proc (aggcombinefn r)
                  then fmgr_builtin (aggcombinefn r) else None in
        match agginitval r with
        | None =>
            Some {| transitionFn := tf; finalFn := None;
                    combineFn := cf; initialValue := None |}
        | Some lit =>
            match int8in lit with
            | Some z =>
                Some {| transitionFn := tf; finalFn := None;
                        combineFn := cf; initialValue := Some z |}
            | None => None
            end
        end
    end.

Section Execution.

Variable d : AggregateDefinition.

(** Modelled from the spec: initialize() produces the seed state from the
    initial value if present, and the unseeded state otherwise. *)
Definition initialize : TransState := initialValue d.

(** Modelled from the spec: advance(state, inputRow); on the unseeded state
    the first input seeds the state. *)
Definition advance (st : TransState) (row : Z) : TransState :=
  match st with
  | None => Some row
  | Some s => Some (transitionFn d s row)
  end.

(** Modelled from the spec: finalize(state) invokes the final function if
    present; otherwise the transition state itself is the result. *)
Definition finalize (st : TransState) : option Z :=
  match finalFn d with
  | Some f => option_map f st
  | None => st
  end.

(* The state one worker reaches over the rows delivered to it. *)
Definition worker (rows : list Z) : TransState :=
  fold_left advance rows initialize.

(** Modelled from the spec: the Sequential strategy: one state, advance
    once per input row in delivery order, finalize once at the end. *)
Definition Sequential (rows : list Z) : option Z := finalize (worker rows).

(* The reducer's step: the first partial state seeds the reduction. *)
Definition reduce (c : Z -> Z -> Z) (acc part : TransState) : TransState :=
  match acc, part with
  | None, s => s
  | s, None => s
  | Some a, Some b => Some (c a b)
  end.

(** Modelled from the spec: the Parallelizable strategy: each partition is
    aggregated by its own worker, the reducer folds the partial states
    through the combine function and finalizes; without a combine function
    the Selector falls back to Sequential. *)
Definition Parallelizable (partitions : list (list Z)) : option Z :=
  match combineFn d with
  | None => Sequential (List.concat partitions)
  | Some c => finalize (fold_left (reduce c) (map worker partitions) None)
  end.

End Execution.

Inductive Outcome : Type :=
| Result (v : option Z)     (* the aggregate value; [None] is SQL NULL *)
| NotRegistered
| NotModelled.

(* Run an aggregate of the catalog over one delivery of input rows. *)
Definition run_sequential (fnoid : Oid) (rows : list Z) : Outcome :=
  match lookupAggregate fnoid with
  | None => NotRegistered
  | Some r =>
      match bind_row r with
      | None => NotModelled
      | Some d => Result (Sequential d rows)
      end
  end.

(* Run an aggregate of the catalog over partitioned input rows. *)
Definition run_parallel (fnoid : Oid) (partitions : list (list Z)) : Outcome :=
  match lookupAggregate fnoid with
  | None => NotRegistered
  | Some r =>
      match bind_row r with
      | None => NotModelled
      | Some d => Result (Parallelizable d partitions)
      end
  end.

(* The combine function an aggregate of the catalog resolves to. *)
Definition combine_of (fnoid : Oid) : option (Z -> Z -> Z) :=
  match lookupAggregate fnoid with
  | None => None
  | Some r =>
      match bind_row r with
      | None => None
      | Some d => combineFn d
      end
  end.

(** ** Rows and definitions the statements below refer to *)

(* mode: the ordered-set aggregate without direct arguments *)
Definition mode_row : FormData_pg_aggregate :=
  DATA 3984 "o"%char 0 "ordered_set_transition" "mode_final" "-" "-" "-" "-" "-" "-" true false 0 2281 0 0 0 None None.

(* sum over money: moving transition and inverse, no moving final function *)
Definition cash_sum_row : FormData_pg_aggregate :=
  DATA 2112 "n"%char 0 "cash_pl" "-" "cash_pl" "-" "-" "cash_pl" "cash_mi" "-" false false 0 790 0 790 0 None None.

(* bit_and over int2: the first of the bitwise rows *)
Definition int2and_row : FormData_pg_aggregate :=
  DATA 2236 "n"%char 0 "int2and" "-" "int2and" "-" "-" "-" "-" "-" false false 0 21 0 0 0 None None.

(* avg over int8: an opaque state with a serialize/deserialize pair *)
Definition int8_avg_row : FormData_pg_aggregate :=
  DATA 2100 "n"%char 0 "int8_avg_accum" "numeric_poly_avg" "int8_avg_combine" "int8_avg_serialize" "int8_avg_deserialize" "int8_avg_accum" "int8_avg_accum_inv" "numeric_poly_avg" false false 0 2281 48 2281 48 None None.

(* rank: a hypothetical-set aggregate *)
Definition rank_row : FormData_pg_aggregate :=
  DATA 3986 "h"%char 1 "ordered_set_transition_multi" "rank_final" "-" "-" "-" "-" "-" "-" true false 0 2281 0 0 0 None None.

(* the one-argument count, with a moving state and a moving initial value *)
Definition count_any_row : FormData_pg_aggregate :=
  DATA 2147 "n"%char 0 "int8inc_any" "-" "int8pl" "-" "-" "int8inc_any" "int8dec_any" "-" false false 0 20 0 20 0 (Some "0") (Some "0").

(* What the two count rows bind to. *)
Definition count_def : AggregateDefinition :=
  {| transitionFn := fun s _ => int8inc s; finalFn := None;
     combineFn := Some int8pl; initialValue := Some 0 |}.

(* What the int4 and int8 max rows bind to. *)
Definition max_def : AggregateDefinition :=
  {| transitionFn := int4larger; finalFn := None;
     combineFn := Some int4larger; initialValue := None |}.

(* The claim that the moving-window callbacks come as a complete set. *)
Definition moving_all_or_none (r : FormData_pg_aggregate) : Prop :=
  (present (aggmtransfn r) /\ present (aggminvtransfn r)
   /\ present (aggmfinalfn r))
  \/ (absent (aggmtransfn r) /\ absent (aggminvtransfn r)
      /\ absent (aggmfinalfn r)).

(* A moving transition function that comes without its inverse. *)
Definition forward_without_inverse (r : FormData_pg_aggregate) : Prop :=
  present (aggmtransfn r) /\ absent (aggminvtransfn r).

(** ** The layout tables of the header

    The struct members in declaration order, the Anum_ attribute numbers and
    the FOREIGN_KEY declarations, as the header lists them. *)

Inductive ctype : Type :=
| T_regproc | T_char | T_int16 | T_bool | T_Oid | T_int32 | T_text.

Definition ctype_eqb (a b : ctype) : bool :=
  match a, b with
  | T_regproc, T_regproc | T_char, T_char | T_int16, T_int16
  | T_bool, T_bool | T_Oid, T_Oid | T_int32, T_int32 | T_text, T_text => true
  | _, _ => false
  end.

(* The members of FormData_pg_aggregate, in declaration order. *)
Definition columns : list (ctype * string) :=
  [ (T_regproc, "aggfnoid");
    (T_char, "aggkind");
    (T_int16, "aggnumdirectargs");
    (T_regproc, "aggtransfn");
    (T_regproc, "aggfinalfn");
    (T_regproc, "aggcombinefn");
    (T_regproc, "aggserialfn");
    (T_regproc, "aggdeserialfn");
    (T_regproc, "aggmtransfn");
    (T_regproc, "aggminvtransfn");
    (T_regproc, "aggmfinalfn");
    (T_bool, "aggfinalextra");
    (T_bool, "aggmfinalextra");
    (T_Oid, "aggsortop");
    (T_Oid, "aggtranstype");
    (T_int32, "aggtransspace");
    (T_Oid, "aggmtranstype");
    (T_int32, "aggmtransspace");
    (T_text, "agginitval");
    (T_text, "aggminitval") ].

(* The number of members that precede "#ifdef CATALOG_VARLEN". *)
Definition fixed_length_columns : nat := 18.

Definition Anum_pg_aggregate_aggfnoid : Z := 1.
Definition Anum_pg_aggregate_aggkind : Z := 2.
Definition Anum_pg_aggregate_aggnumdirectargs : Z := 3.
Definition Anum_pg_aggregate_aggtransfn : Z := 4.
Definition Anum_pg_aggregate_aggfinalfn : Z := 5.
Definition Anum_pg_aggregate_aggcombinefn : Z := 6.
Definition Anum_pg_aggregate_aggserialfn : Z := 7.
Definition Anum_pg_aggregate_aggdeserialfn : Z := 8.
Definition Anum_pg_aggregate_aggmtransfn : Z := 9.
Definition Anum_pg_aggregate_aggminvtransfn : Z := 10.
Definition Anum_pg_aggregate_aggmfinalfn : Z := 11.
Definition Anum_pg_aggregate_aggfinalextra : Z := 12.
Definition Anum_pg_aggregate_aggmfinalextra : Z := 13.
Definition Anum_pg_aggregate_aggsortop : Z := 14.
Definition Anum_pg_aggregate_aggtranstype : Z := 15.
Definition Anum_pg_aggregate_aggtransspace : Z := 16.
Definition Anum_pg_aggregate_aggmtranstype : Z := 17.
Definition Anum_pg_aggregate_aggmtransspace : Z := 18.
Definition Anum_pg_aggregate_agginitval : Z := 19.
Definition Anum_pg_aggregate_aggminitval : Z := 20.

(* The Anum_ constants by the member they are named after, in the order of
   the #define lines. *)
Definition attribute_numbers : list (string * Z) :=
  [ ("aggfnoid", Anum_pg_aggregate_aggfnoid);
    ("aggkind", Anum_pg_aggregate_aggkind);
    ("aggnumdirectargs", Anum_pg_aggregate_aggnumdirectargs);
    ("aggtransfn", Anum_pg_aggregate_aggtransfn);
    ("aggfinalfn", Anum_pg_aggregate_aggfinalfn);
    ("aggcombinefn", Anum_pg_aggregate_aggcombinefn);
    ("aggserialfn", Anum_pg_aggregate_aggserialfn);
    ("aggdeserialfn", Anum_pg_aggregate_aggdeserialfn);
    ("aggmtransfn", Anum_pg_aggregate_aggmtransfn);
    ("aggminvtransfn", Anum_pg_aggregate_aggminvtransfn);
    ("aggmfinalfn", Anum_pg_aggregate_aggmfinalfn);
    ("aggfinalextra", Anum_pg_aggregate_aggfinalextra);
    ("aggmfinalextra", Anum_pg_aggregate_aggmfinalextra);
    ("aggsortop", Anum_pg_aggregate_aggsortop);
    ("aggtranstype", Anum_pg_aggregate_aggtranstype);
    ("aggtransspace", Anum_pg_aggregate_aggtransspace);
    ("aggmtranstype", Anum_pg_aggregate_aggmtranstype);
    ("aggmtransspace", Anum_pg_aggregate_aggmtransspace);
    ("agginitval", Anum_pg_aggregate_agginitval);
    ("aggminitval", Anum_pg_aggregate_aggminitval) ].

(* FOREIGN_KEY(column REFERENCES table(oid)), in the order of the header. *)
Definition foreign_keys : list (string * string) :=
  [ ("aggfnoid", "pg_proc");
    ("aggtransfn", "pg_proc");
    ("aggcombinefn", "pg_proc");
    ("aggfinalfn", "pg_proc");
    ("aggserialfn", "pg_proc");
    ("aggdeserialfn", "pg_proc");
    ("aggmtransfn", "pg_proc");
    ("aggminvtransfn", "pg_proc");
    ("aggmfinalfn", "pg_proc");
    ("aggsortop", "pg_operator");
    ("aggtranstype", "pg_type");
    ("aggmtranstype", "pg_type") ].

(* The first entry of an association list under a name. *)
Fixpoint assoc {A : Type} (name : string) (l : list (string * A)) : option A :=
  match l with
  | [] => None
  | (k, v) :: t => if String.eqb k name then Some v else assoc name t
  end.

Definition attnum (name : string) : option Z := assoc name attribute_numbers.

Definition references (name : string) : option string :=
  assoc name foreign_keys.

(** ** Further row-level checks *)

Definition text_eqb (a b : option string) : bool :=
  match a, b with
  | None, None => true
  | Some x, Some y => String.eqb x y
  | _, _ => false
  end.

(* The row with another aggregate's identity. *)
Definition with_fnoid (fnoid : Oid) (r : FormData_pg_aggregate) :
  FormData_pg_aggregate :=
  DATA fnoid (aggkind r) (aggnumdirectargs r) (aggtransfn r) (aggfinalfn r)
       (aggcombinefn r) (aggserialfn r) (aggdeserialfn r) (aggmtransfn r)
       (aggminvtransfn r) (aggmfinalfn r) (aggfinalextra r) (aggmfinalextra r)
       (aggsortop r) (aggtranstype r) (aggtransspace r) (aggmtranstype r)
       (aggmtransspace r) (agginitval r) (aggminitval r).

(* What a row registers, its identity apart. *)
Definition registration (r : FormData_pg_aggregate) : FormData_pg_aggregate :=
  with_fnoid InvalidOid r.

Definition kind_known (r : FormData_pg_aggregate) : bool :=
  Ascii.eqb (aggkind r) AGGKIND_NORMAL
  || Ascii.eqb (aggkind r) AGGKIND_ORDERED_SET
  || Ascii.eqb (aggkind r) AGGKIND_HYPOTHETICAL.

Definition mandatory_slots (r : FormData_pg_aggregate) : bool :=
  has_proc (aggtransfn r) && negb (aggtranstype r =? InvalidOid).

Definition internal_state_shape (r : FormData_pg_aggregate) : bool :=
  implb (aggtranstype r =? INTERNALOID)
        (has_proc (aggfinalfn r) && negb (has_text (agginitval r)))
  && implb (aggmtranstype r =? INTERNALOID)
        (has_proc (aggmfinalfn r) && negb (has_text (aggminitval r))).

Definition finalextra_shape (r : FormData_pg_aggregate) : bool :=
  implb (aggfinalextra r)
        (has_proc (aggfinalfn r) && (aggtranstype r =? INTERNALOID))
  && negb (aggmfinalextra r).

Definition sortop_shape (r : FormData_pg_aggregate) : bool :=
  implb (negb (aggsortop r =? InvalidOid))
        (Ascii.eqb (aggkind r) AGGKIND_NORMAL
         && negb (has_proc (aggfinalfn r))
         && negb (has_text (agginitval r))
         && String.eqb (aggcombinefn r) (aggtransfn r)).

Definition space_shape (r : FormData_pg_aggregate) : bool :=
  (0 <=? aggtransspace r) && (0 <=? aggmtransspace r)
  && implb (negb (aggtransspace r =? 0)) (aggtranstype r =? INTERNALOID)
  && implb (negb (aggmtransspace r =? 0)) (aggmtranstype r =? INTERNALOID).

Definition ordered_set_shape (r : FormData_pg_aggregate) : bool :=
  implb (Ascii.eqb (aggkind r) AGGKIND_ORDERED_SET)
        (String.eqb (aggtransfn r) "ordered_set_transition")
  && implb (Ascii.eqb (aggkind r) AGGKIND_HYPOTHETICAL)
        (String.eqb (aggtransfn r) "ordered_set_transition_multi"
         && aggfinalextra r)
  && implb (AGGKIND_IS_ORDERED_SET (aggkind r))
        (has_proc (aggfinalfn r) && (aggtranstype r =? INTERNALOID)
         && (aggsortop r =? InvalidOid) && negb (has_text (agginitval r))).

Definition partial_transfer_shape (r : FormData_pg_aggregate) : bool :=
  implb (has_proc (aggserialfn r)) (has_proc (aggcombinefn r))
  && implb ((aggtranstype r =? INTERNALOID) && has_proc (aggcombinefn r))
        (has_proc (aggserialfn r) && has_proc (aggdeserialfn r)).

Definition moving_mode_shape (r : FormData_pg_aggregate) : bool :=
  implb (has_proc (aggmtransfn r))
        (if String.eqb (aggmtransfn r) (aggtransfn r)
         then (aggmtranstype r =? aggtranstype r)
              && (aggmtransspace r =? aggtransspace r)
              && text_eqb (aggminitval r) (agginitval r)
              && String.eqb (aggmfinalfn r) (aggfinalfn r)
         else negb (aggmtranstype r =? aggtranstype r)
              && has_proc (aggmfinalfn r)).

(* The ranges of the C types of the integer members. *)
Definition fits_uint32 (z : Z) : bool := (0 <=? z) && (z <? 2 ^ 32).

Definition fits_int16 (z : Z) : bool := (- 2 ^ 15 <=? z) && (z <? 2 ^ 15).

Definition fits_int32 (z : Z) : bool := (- 2 ^ 31 <=? z) && (z <? 2 ^ 31).

Definition fits_struct (r : FormData_pg_aggregate) : bool :=
  fits_uint32 (aggfnoid r) && fits_int16 (aggnumdirectargs r)
  && fits_uint32 (aggsortop r) && fits_uint32 (aggtranstype r)
  && fits_int32 (aggtransspace r) && fits_uint32 (aggmtranstype r)
  && fits_int32 (aggmtransspace r).

(* max over int4 *)
Definition int4_max_row : FormData_pg_aggregate :=
  DATA 2116 "n"%char 0 "int4larger" "-" "int4larger" "-" "-" "-" "-" "-" false false 521 23 0 0 0 None None.

(* bool_and: a bool state, with an opaque moving state *)
Definition bool_and_row : FormData_pg_aggregate :=
  DATA 2517 "n"%char 0 "booland_statefunc" "-" "booland_statefunc" "-" "-" "bool_accum" "bool_accum_inv" "bool_alltrue" false false 58 16 0 2281 16 None None.

(* array_agg: the final function receives extra arguments *)
Definition array_agg_row : FormData_pg_aggregate :=
  DATA 2335 "n"%char 0 "array_agg_transfn" "array_agg_finalfn" "-" "-" "-" "-" "-" "-" true false 0 2281 0 0 0 None None.

(** * Properties of the catalog rows *)

Lemma has_procP (p : regproc) : reflect (present p) (has_proc p).
Proof.
  unfold has_proc, present.
  destruct (String.eqb_spec p InvalidProc); simpl; constructor; auto.
Qed.

Lemma not_present_absent (p : regproc) : ~ present p -> absent p.
Proof.
  unfold present, absent. intros H.
  destruct (String.eqb_spec p InvalidProc); [assumption | contradiction].
Qed.

Lemma absent_not_present (p : regproc) : absent p -> ~ present p.
Proof. unfold present, absent. auto. Qed.

Lemma lookup_In (fnoid : Oid) (r : FormData_pg_aggregate) :
  lookupAggregate fnoid = Some r -> In r catalog.
Proof. intros H. apply find_some in H. exact (proj1 H). Qed.

Lemma lookup_fnoid (fnoid : Oid) (r : FormData_pg_aggregate) :
  lookupAggregate fnoid = Some r -> aggfnoid r = fnoid.
Proof. intros H. apply find_some in H. apply Z.eqb_eq. exact (proj2 H). Qed.

(* A check that evaluates to true on the whole catalog holds of every row. *)
Lemma every_row (chk : FormData_pg_aggregate -> bool) :
  forallb chk catalog = true ->
  forall r, In r catalog -> chk r = true.
Proof. intros H r Hin. exact (proj1 (forallb_forall chk catalog) H r Hin). Qed.

Lemma catalog_size : List.length catalog = 150%nat.
Proof. reflexivity. Qed.



Lemma rows_directargs : forallb directargs_shape catalog = true.
Proof. vm_compute. reflexivity. Qed.

Lemma rows_moving_pair : forallb moving_pair_shape catalog = true.
Proof. vm_compute. reflexivity. Qed.

Lemma rows_bitwise_shape : forallb bitwise_shape catalog = true.
Proof. vm_compute. reflexivity. Qed.

Lemma rows_serial_pair : forallb serial_pair_shape catalog = true.
Proof. vm_compute. reflexivity. Qed.

Lemma rows_serial_internal : forallb serial_needs_internal catalog = true.
Proof. vm_compute. reflexivity. Qed.

Lemma rows_ordered_set_plain : forallb ordered_set_plain catalog = true.
Proof. vm_compute. reflexivity. Qed.

Lemma rows_moving_state : forallb moving_state_shape catalog = true.
Proof. vm_compute. reflexivity. Qed.

(* The complete-set reading of the moving-window callbacks does not hold of
   the catalog as a whole. *)
Lemma rows_moving_set_incomplete : forallb moving_set_complete catalog = false.
Proof. vm_compute. reflexivity. Qed.

(* Split a hypothesis made of boolean connectives over the slot tests. *)
Ltac slots :=
  repeat match goal with
    | H : _ && _ = true |- _ => apply andb_true_iff in H; destruct H
    | H : context [has_proc ?p] |- _ => destruct (has_procP p)
    | H : context [Z.eqb ?a ?b] |- _ => destruct (Z.eqb_spec a b)
    | H : context [Ascii.eqb ?a ?b] |- _ => destruct (Ascii.eqb_spec a b)
    | H : context [String.eqb ?a ?b] |- _ => destruct (String.eqb_spec a b)
    end;
  simpl in *; try discriminate.

(** C1 (as amended): in every row of the catalog, aggnumdirectargs is 0
    exactly when the aggregate is Normal or is the ordered-set aggregate mode
    (3984), which has no direct argument; no Hypothetical row has
    aggnumdirectargs = 0. *)
Theorem directargs_zero_iff_normal_or_mode :
  forall r, In r catalog ->
    (aggnumdirectargs r = 0 <->
       aggkind r = AGGKIND_NORMAL \/ aggfnoid r = 3984)
    /\ (aggkind r = AGGKIND_HYPOTHETICAL -> aggnumdirectargs r <> 0).
Proof.
  intros r Hin.
  pose proof (every_row _ rows_directargs r Hin) as H.
  unfold directargs_shape, AGGKIND_IS_ORDERED_SET, is_mode in H.
  slots; split; try tauto; intros; try tauto; try congruence.
Qed.

Lemma directargs_zero_iff_normal_or_mode_witness :
  In mode_row catalog
  /\ ((aggnumdirectargs mode_row = 0 <->
         aggkind mode_row = AGGKIND_NORMAL \/ aggfnoid mode_row = 3984)
      /\ (aggkind mode_row = AGGKIND_HYPOTHETICAL ->
          aggnumdirectargs mode_row <> 0)).
Proof.
  assert (Hin : In mode_row catalog)
    by (apply (lookup_In 3984); reflexivity).
  split; [exact Hin | exact (directargs_zero_iff_normal_or_mode mode_row Hin)].
Defined.

(** C1 (as stated) fails: the row of mode (3984) is an ordered-set aggregate
    registered with aggnumdirectargs = 0, so "0 iff Normal" does not hold of
    every row. *)
Lemma mode_has_no_direct_args :
  In mode_row catalog
  /\ aggkind mode_row = AGGKIND_ORDERED_SET
  /\ aggnumdirectargs mode_row = 0
  /\ ~ (forall r, In r catalog ->
          (aggnumdirectargs r = 0 <-> aggkind r = AGGKIND_NORMAL)).
Proof.
  assert (Hin : In mode_row catalog)
    by (apply (lookup_In 3984); reflexivity).
  repeat split; try exact Hin.
  intros Hall. destruct (Hall mode_row Hin) as [Hzero _].
  specialize (Hzero eq_refl). discriminate Hzero.
Qed.

(** C2 (as amended): in every row of the catalog the moving transition
    function and the moving inverse function are both present or both absent,
    and a moving final function is declared only together with them; the
    moving final function itself is optional. *)
Theorem moving_forward_inverse_paired :
  forall r, In r catalog ->
    (present (aggmtransfn r) <-> present (aggminvtransfn r))
    /\ (present (aggmfinalfn r) -> present (aggmtransfn r)).
Proof.
  intros r Hin.
  pose proof (every_row _ rows_moving_pair r Hin) as H.
  unfold moving_pair_shape in H.
  slots; tauto.
Qed.

Lemma moving_forward_inverse_paired_witness :
  In cash_sum_row catalog
  /\ ((present (aggmtransfn cash_sum_row) <->
         present (aggminvtransfn cash_sum_row))
      /\ (present (aggmfinalfn cash_sum_row) ->
          present (aggmtransfn cash_sum_row))).
Proof.
  assert (Hin : In cash_sum_row catalog)
    by (apply (lookup_In 2112); reflexivity).
  split; [exact Hin | exact (moving_forward_inverse_paired cash_sum_row Hin)].
Defined.

(** C2 (as stated) fails: the row of sum over money (2112) declares a moving
    transition function and a moving inverse function, but no moving final
    function. *)
Lemma cash_sum_has_partial_moving_set :
  In cash_sum_row catalog
  /\ present (aggmtransfn cash_sum_row)
  /\ present (aggminvtransfn cash_sum_row)
  /\ absent (aggmfinalfn cash_sum_row)
  /\ ~ (forall r, In r catalog -> moving_all_or_none r).
Proof.
  assert (Hin : In cash_sum_row catalog)
    by (apply (lookup_In 2112); reflexivity).
  repeat split; try exact Hin; try discriminate.
  intros Hall.
  destruct (Hall cash_sum_row Hin) as [(_ & _ & Hf) | (Ht & _ & _)].
  - apply Hf. reflexivity.
  - discriminate Ht.
Qed.

(** C3 (as amended): in every row of the catalog a moving transition function
    comes with its moving inverse function; the bitwise AND/OR rows
    (2236..2243) declare no moving-window callback at all, the function
    that follows their absent final function being the combine function,
    which repeats the transition function. *)
Theorem bitwise_rows_have_no_moving_set :
  forall r, In r catalog ->
    (present (aggmtransfn r) -> present (aggminvtransfn r))
    /\ (2236 <= aggfnoid r <= 2243 ->
        absent (aggmtransfn r) /\ absent (aggminvtransfn r)
        /\ absent (aggmfinalfn r)
        /\ present (aggcombinefn r) /\ aggcombinefn r = aggtransfn r).
Proof.
  intros r Hin.
  pose proof (every_row _ rows_bitwise_shape r Hin) as H.
  unfold bitwise_shape, is_bitwise, no_moving_set in H.
  apply andb_true_iff in H. destruct H as [Hpair Hbit].
  split.
  - destruct (has_procP (aggmtransfn r)), (has_procP (aggminvtransfn r));
      simpl in Hpair; try discriminate; tauto.
  - intros [Hlo Hhi].
    apply Z.leb_le in Hlo. apply Z.leb_le in Hhi.
    rewrite Hlo, Hhi in Hbit. simpl in Hbit.
    destruct (has_procP (aggmtransfn r)), (has_procP (aggminvtransfn r)),
      (has_procP (aggmfinalfn r)), (has_procP (aggcombinefn r)),
      (String.eqb_spec (aggcombinefn r) (aggtransfn r));
      simpl in Hbit; try discriminate.
    repeat split; auto using not_present_absent.
Qed.

Lemma bitwise_rows_have_no_moving_set_witness :
  In int2and_row catalog
  /\ ((present (aggmtransfn int2and_row) ->
       present (aggminvtransfn int2and_row))
      /\ (2236 <= aggfnoid int2and_row <= 2243 ->
          absent (aggmtransfn int2and_row)
          /\ absent (aggminvtransfn int2and_row)
          /\ absent (aggmfinalfn int2and_row)
          /\ present (aggcombinefn int2and_row)
          /\ aggcombinefn int2and_row = aggtransfn int2and_row)).
Proof.
  assert (Hin : In int2and_row catalog)
    by (apply (lookup_In 2236); reflexivity).
  split; [exact Hin | exact (bitwise_rows_have_no_moving_set int2and_row Hin)].
Defined.

(** C3 (as stated) fails: no row of the catalog has a moving transition
    function without a moving inverse function. *)
Lemma no_forward_without_inverse :
  ~ (exists r, In r catalog /\ forward_without_inverse r).
Proof.
  intros [r [Hin [Hfwd Hinv]]].
  pose proof (every_row _ rows_moving_pair r Hin) as H.
  unfold moving_pair_shape in H.
  apply andb_true_iff in H. destruct H as [H _].
  destruct (has_procP (aggmtransfn r)), (has_procP (aggminvtransfn r));
    simpl in H; try discriminate.
  - exact (absent_not_present _ Hinv ltac:(assumption)).
  - contradiction.
Qed.

(** C7: in every row of the catalog the serialize function and the
    deserialize function are both present or both absent. *)
Theorem serial_deserial_paired :
  forall r, In r catalog ->
    (present (aggserialfn r) /\ present (aggdeserialfn r))
    \/ (absent (aggserialfn r) /\ absent (aggdeserialfn r)).
Proof.
  intros r Hin.
  pose proof (every_row _ rows_serial_pair r Hin) as H.
  unfold serial_pair_shape in H.
  destruct (has_procP (aggserialfn r)), (has_procP (aggdeserialfn r));
    simpl in H; try discriminate.
  - left. split; assumption.
  - right. split; apply not_present_absent; assumption.
Qed.

Lemma serial_deserial_paired_witness :
  In int8_avg_row catalog
  /\ ((present (aggserialfn int8_avg_row)
       /\ present (aggdeserialfn int8_avg_row))
      \/ (absent (aggserialfn int8_avg_row)
          /\ absent (aggdeserialfn int8_avg_row))).
Proof.
  assert (Hin : In int8_avg_row catalog)
    by (apply (lookup_In 2100); reflexivity).
  split; [exact Hin | exact (serial_deserial_paired int8_avg_row Hin)].
Defined.

(** C8: every row of the catalog that declares a serialize or a deserialize
    function has the opaque type "internal" (2281) as its transition state
    type; a row with any other state type declares neither. *)
Theorem serial_only_for_internal_state :
  forall r, In r catalog ->
    (present (aggserialfn r) \/ present (aggdeserialfn r) ->
     aggtranstype r = INTERNALOID)
    /\ (aggtranstype r <> INTERNALOID ->
        absent (aggserialfn r) /\ absent (aggdeserialfn r)).
Proof.
  intros r Hin.
  pose proof (every_row _ rows_serial_internal r Hin) as H.
  unfold serial_needs_internal in H.
  destruct (has_procP (aggserialfn r)) as [Hs | Hs],
    (has_procP (aggdeserialfn r)) as [Hd | Hd],
    (Z.eqb_spec (aggtranstype r) INTERNALOID) as [Ht | Ht];
    simpl in H; try discriminate; split; intros; try tauto;
    split; apply not_present_absent; assumption.
Qed.

Lemma serial_only_for_internal_state_witness :
  In int8_avg_row catalog
  /\ ((present (aggserialfn int8_avg_row)
       \/ present (aggdeserialfn int8_avg_row) ->
       aggtranstype int8_avg_row = INTERNALOID)
      /\ (aggtranstype int8_avg_row <> INTERNALOID ->
          absent (aggserialfn int8_avg_row)
          /\ absent (aggdeserialfn int8_avg_row))).
Proof.
  assert (Hin : In int8_avg_row catalog)
    by (apply (lookup_In 2100); reflexivity).
  split;
    [exact Hin | exact (serial_only_for_internal_state int8_avg_row Hin)].
Defined.

(** C9: every row of the catalog whose kind is OrderedSet or Hypothetical
    declares no combine function, no serialize or deserialize function and
    no moving-window callback. *)
Theorem ordered_set_rows_declare_no_partial_support :
  forall r, In r catalog ->
    aggkind r = AGGKIND_ORDERED_SET \/ aggkind r = AGGKIND_HYPOTHETICAL ->
    absent (aggcombinefn r)
    /\ absent (aggserialfn r) /\ absent (aggdeserialfn r)
    /\ absent (aggmtransfn r) /\ absent (aggminvtransfn r)
    /\ absent (aggmfinalfn r).
Proof.
  intros r Hin Hkind.
  pose proof (every_row _ rows_ordered_set_plain r Hin) as H.
  unfold ordered_set_plain, no_moving_set, AGGKIND_IS_ORDERED_SET in H.
  assert (Hk : Ascii.eqb (aggkind r) AGGKIND_NORMAL = false).
  { destruct Hkind as [-> | ->]; reflexivity. }
  rewrite Hk in H. simpl in H.
  destruct (has_procP (aggcombinefn r)), (has_procP (aggserialfn r)),
    (has_procP (aggdeserialfn r)), (has_procP (aggmtransfn r)),
    (has_procP (aggminvtransfn r)), (has_procP (aggmfinalfn r));
    simpl in H; try discriminate.
  repeat split; apply not_present_absent; assumption.
Qed.

Lemma ordered_set_rows_declare_no_partial_support_witness :
  In rank_row catalog
  /\ (aggkind rank_row = AGGKIND_ORDERED_SET
      \/ aggkind rank_row = AGGKIND_HYPOTHETICAL)
  /\ absent (aggcombinefn rank_row)
  /\ absent (aggserialfn rank_row) /\ absent (aggdeserialfn rank_row)
  /\ absent (aggmtransfn rank_row) /\ absent (aggminvtransfn rank_row)
  /\ absent (aggmfinalfn rank_row).
Proof.
  assert (Hin : In rank_row catalog)
    by (apply (lookup_In 3986); reflexivity).
  assert (Hkind : aggkind rank_row = AGGKIND_ORDERED_SET
                  \/ aggkind rank_row = AGGKIND_HYPOTHETICAL)
    by (right; reflexivity).
  split; [exact Hin |].
  split; [exact Hkind |].
  exact (ordered_set_rows_declare_no_partial_support rank_row Hin Hkind).
Defined.

(** C10: in every row of the catalog the moving-aggregate state type is
    nonzero exactly when a moving transition function is present, and a
    moving initial value is given only where a moving transition function is
    present. *)
Theorem moving_state_iff_moving_transition :
  forall r, In r catalog ->
    (aggmtranstype r <> InvalidOid <-> present (aggmtransfn r))
    /\ (aggminitval r <> None -> present (aggmtransfn r)).
Proof.
  intros r Hin.
  pose proof (every_row _ rows_moving_state r Hin) as H.
  unfold moving_state_shape in H.
  destruct (has_procP (aggmtransfn r)),
    (Z.eqb_spec (aggmtranstype r) InvalidOid),
    (aggminitval r); simpl in H; try discriminate;
    split; try tauto; try (intros; congruence); split; intros; congruence.
Qed.

Lemma moving_state_iff_moving_transition_witness :
  In count_any_row catalog
  /\ ((aggmtranstype count_any_row <> InvalidOid <->
         present (aggmtransfn count_any_row))
      /\ (aggminitval count_any_row <> None ->
          present (aggmtransfn count_any_row))).
Proof.
  assert (Hin : In count_any_row catalog)
    by (apply (lookup_In AGGFNOID_COUNT_ANY); reflexivity).
  split;
    [exact Hin | exact (moving_state_iff_moving_transition count_any_row Hin)].
Defined.

(** * Properties of the execution contract *)

(** ** 64-bit arithmetic *)

Lemma wrap64_range (z : Z) : INT64_MIN <= wrap64 z <= INT64_MAX.
Proof.
  unfold wrap64, INT64_MIN, INT64_MAX.
  pose proof (Z.mod_pos_bound (z + 2 ^ 63) (2 ^ 64) ltac:(lia)). lia.
Qed.

Lemma wrap64_exact (z : Z) : INT64_MIN <= z <= INT64_MAX -> wrap64 z = z.
Proof.
  unfold wrap64, INT64_MIN, INT64_MAX. intros H.
  rewrite Z.mod_small by lia. lia.
Qed.

Lemma wrap64_add_l (a b : Z) : wrap64 (wrap64 a + b) = wrap64 (a + b).
Proof.
  unfold wrap64.
  replace ((a + 2 ^ 63) mod 2 ^ 64 - 2 ^ 63 + b + 2 ^ 63)
    with ((a + 2 ^ 63) mod 2 ^ 64 + b) by lia.
  rewrite Zplus_mod_idemp_l.
  replace (a + 2 ^ 63 + b) with (a + b + 2 ^ 63) by lia.
  reflexivity.
Qed.

Lemma wrap64_add_r (a b : Z) : wrap64 (a + wrap64 b) = wrap64 (a + b).
Proof. rewrite (Z.add_comm a (wrap64 b)), wrap64_add_l. f_equal. lia. Qed.

(* Where the exact sum fits in 64 bits, int8pl is that sum. *)
Lemma int8pl_exact (a b : Z) :
  INT64_MIN <= a + b <= INT64_MAX -> int8pl a b = a + b.
Proof. apply wrap64_exact. Qed.

Lemma int8pl_comm (a b : Z) : int8pl a b = int8pl b a.
Proof. unfold int8pl. f_equal. lia. Qed.

(* Where the raising addition returns a value, it is the wrapping one's. *)
Lemma int8pl_checked_agrees (a b z : Z) :
  int8pl_checked a b = Some z -> int8pl a b = z.
Proof.
  unfold int8pl_checked. intros H.
  destruct (Z.leb_spec INT64_MIN (a + b)), (Z.leb_spec (a + b) INT64_MAX);
    simpl in H; try discriminate.
  injection H as <-. apply int8pl_exact. lia.
Qed.

(* On counts (states that are not negative) the raising addition is
   associative as well, failures included: either grouping fails exactly
   when the exact total does not fit. *)
Lemma int8pl_checked_assoc_on_counts (a b c : Z) :
  0 <= a -> 0 <= b -> 0 <= c ->
  combine_checked (int8pl_checked a b) (Some c)
  = combine_checked (Some a) (int8pl_checked b c).
Proof.
  intros Ha Hb Hc. unfold combine_checked, int8pl_checked, INT64_MIN, INT64_MAX.
  destruct (Z.leb_spec (- 2 ^ 63) (a + b)), (Z.leb_spec (a + b) (2 ^ 63 - 1)),
    (Z.leb_spec (- 2 ^ 63) (b + c)), (Z.leb_spec (b + c) (2 ^ 63 - 1));
    cbn [andb]; try lia;
    repeat match goal with
           | |- context [Z.leb ?x ?y] => destruct (Z.leb_spec x y)
           end; cbn [andb]; try lia; try reflexivity; f_equal; lia.
Qed.

(** ** What the count and max rows bind to *)

Lemma bind_count_any :
  option_map bind_row (lookupAggregate AGGFNOID_COUNT_ANY)
  = Some (Some count_def).
Proof. reflexivity. Qed.

Lemma bind_count_star :
  option_map bind_row (lookupAggregate 2803) = Some (Some count_def).
Proof. reflexivity. Qed.

Lemma bind_max_int4 :
  option_map bind_row (lookupAggregate 2116) = Some (Some max_def).
Proof. reflexivity. Qed.

Lemma bind_max_int8 :
  option_map bind_row (lookupAggregate 2115) = Some (Some max_def).
Proof. reflexivity. Qed.

(* The max rows are registered with a sort operator, without a final
   function and without an initial value. *)
Lemma max_rows_registered :
  map (fun r => (aggtransfn r, aggfinalfn r, aggsortop r, agginitval r))
      (filter (fun r => (aggfnoid r =? 2115) || (aggfnoid r =? 2116)) catalog)
  = [ ("int8larger", "-", 413, None); ("int4larger", "-", 521, None) ].
Proof. reflexivity. Qed.

(* The count rows are registered with an int8 state starting at "0",
   without a final function and with int8pl as combine function. *)
Lemma count_rows_registered :
  map (fun r => (aggtransfn r, aggfinalfn r, aggcombinefn r,
                 aggtranstype r, agginitval r))
      (filter (fun r => (aggfnoid r =? 2147) || (aggfnoid r =? 2803)) catalog)
  = [ ("int8inc_any", "-", "int8pl", 20, Some "0");
      ("int8inc", "-", "int8pl", 20, Some "0") ].
Proof. reflexivity. Qed.

Lemma run_sequential_count (fnoid : Oid) (rows : list Z) :
  fnoid = AGGFNOID_COUNT_ANY \/ fnoid = 2803 ->
  run_sequential fnoid rows = Result (Sequential count_def rows).
Proof. intros [-> | ->]; reflexivity. Qed.

Lemma run_parallel_count (fnoid : Oid) (parts : list (list Z)) :
  fnoid = AGGFNOID_COUNT_ANY \/ fnoid = 2803 ->
  run_parallel fnoid parts = Result (Parallelizable count_def parts).
Proof. intros [-> | ->]; reflexivity. Qed.

Lemma run_sequential_max (fnoid : Oid) (rows : list Z) :
  fnoid = 2115 \/ fnoid = 2116 ->
  run_sequential fnoid rows = Result (Sequential max_def rows).
Proof. intros [-> | ->]; reflexivity. Qed.

(** ** COUNT *)

Lemma count_fold (rows : list Z) :
  forall s : Z,
    fold_left (advance count_def) rows (Some (wrap64 s))
    = Some (wrap64 (s + Z.of_nat (List.length rows))).
Proof.
  induction rows as [| x rows IH]; intros s.
  - simpl. rewrite Z.add_0_r. reflexivity.
  - cbn [fold_left advance count_def transitionFn].
    unfold int8inc. rewrite wrap64_add_l, IH.
    f_equal. f_equal. cbn [List.length]. lia.
Qed.

(* A worker of count reaches the number of rows delivered to it. *)
Lemma count_worker (rows : list Z) :
  worker count_def rows = Some (wrap64 (Z.of_nat (List.length rows))).
Proof.
  unfold worker, initialize. cbn [count_def initialValue].
  change (Some 0) with (Some (wrap64 0)). rewrite count_fold. reflexivity.
Qed.

Lemma count_sequential (rows : list Z) :
  Sequential count_def rows = Some (wrap64 (Z.of_nat (List.length rows))).
Proof. unfold Sequential, finalize. cbn [count_def finalFn]. apply count_worker. Qed.

(* The reducer of count adds up the partial counts. *)
Lemma count_reduce (parts : list (list Z)) :
  forall s : Z,
    fold_left (reduce int8pl) (map (worker count_def) parts) (Some (wrap64 s))
    = Some (wrap64 (s + Z.of_nat (List.length (List.concat parts)))).
Proof.
  induction parts as [| p parts IH]; intros s.
  - simpl. rewrite Z.add_0_r. reflexivity.
  - cbn [map fold_left List.concat]. rewrite count_worker.
    cbn [reduce]. unfold int8pl. rewrite wrap64_add_l, wrap64_add_r, IH.
    f_equal. f_equal. rewrite length_app. lia.
Qed.

(* Partition invariance of count: over at least one partition, combining the
   partial counts gives what one sequential pass gives. *)
Lemma count_partition_invariant (p : list Z) (parts : list (list Z)) :
  Parallelizable count_def (p :: parts)
  = Sequential count_def (List.concat (p :: parts)).
Proof.
  rewrite count_sequential.
  unfold Parallelizable, finalize. cbn [count_def combineFn finalFn].
  cbn [map fold_left]. rewrite count_worker. cbn [reduce].
  rewrite count_reduce. f_equal. f_equal.
  cbn [List.concat]. rewrite length_app. lia.
Qed.

(** C4: for the COUNT aggregates as registered (2147 and 2803: int8 state
    starting at "0", a transition that adds 1 per row, no final function,
    combine function int8pl), 1000 input rows split into 4 partitions of 250
    rows each, aggregated per partition, combined and finalized, give 1000,
    which is also what sequential aggregation over the 1000 rows gives. *)
Theorem count_four_partitions_of_250 :
  forall (fnoid : Oid) (p1 p2 p3 p4 : list Z),
    fnoid = AGGFNOID_COUNT_ANY \/ fnoid = 2803 ->
    List.length p1 = 250%nat -> List.length p2 = 250%nat ->
    List.length p3 = 250%nat -> List.length p4 = 250%nat ->
    run_parallel fnoid [p1; p2; p3; p4] = Result (Some 1000)
    /\ run_sequential fnoid (p1 ++ p2 ++ p3 ++ p4) = Result (Some 1000).
Proof.
  intros fnoid p1 p2 p3 p4 Hid H1 H2 H3 H4.
  rewrite (run_parallel_count fnoid _ Hid), (run_sequential_count fnoid _ Hid).
  rewrite count_partition_invariant.
  cbn [List.concat]. rewrite app_nil_r.
  rewrite count_sequential, !length_app, H1, H2, H3, H4.
  split; reflexivity.
Qed.

Lemma count_four_partitions_of_250_witness :
  run_parallel 2803 [repeat 7 250; repeat 7 250; repeat 7 250; repeat 7 250]
    = Result (Some 1000)
  /\ run_sequential 2803
       (repeat 7 250 ++ repeat 7 250 ++ repeat 7 250 ++ repeat 7 250)
     = Result (Some 1000).
Proof.
  apply (count_four_partitions_of_250 2803
           (repeat 7 250) (repeat 7 250) (repeat 7 250) (repeat 7 250));
    [right; reflexivity | reflexivity | reflexivity | reflexivity | reflexivity].
Defined.

(** C5: int8pl, the combine function of the COUNT aggregates 2147 and 2803,
    is associative on all transition states: combining (a with b) with c
    gives what combining a with (b with c) gives. *)
Theorem int8pl_assoc :
  combine_of AGGFNOID_COUNT_ANY = Some int8pl
  /\ combine_of 2803 = Some int8pl
  /\ forall a b c : Z, int8pl (int8pl a b) c = int8pl a (int8pl b c).
Proof.
  split; [reflexivity |]. split; [reflexivity |].
  intros a b c. unfold int8pl.
  rewrite wrap64_add_l, wrap64_add_r. f_equal. lia.
Qed.

(** ** MAX: the order of delivery does not matter *)

Section OrderInsensitive.

Variable d : AggregateDefinition.

(* The transition is symmetric, and two inputs can be folded in either
   order. *)
Hypothesis trans_comm : forall x y, transitionFn d x y = transitionFn d y x.

Hypothesis trans_swap :
  forall s x y,
    transitionFn d (transitionFn d s x) y
    = transitionFn d (transitionFn d s y) x.

Lemma advance_swap (st : TransState) (x y : Z) :
  advance d (advance d st x) y = advance d (advance d st y) x.
Proof.
  destruct st as [s |]; simpl.
  - rewrite trans_swap. reflexivity.
  - rewrite trans_comm. reflexivity.
Qed.

Lemma fold_advance_perm (l l' : list Z) :
  Permutation l l' ->
  forall st, fold_left (advance d) l st = fold_left (advance d) l' st.
Proof.
  induction 1 as [| x l l' _ IH | x y l | l l' l'' _ IH1 _ IH2]; intros st.
  - reflexivity.
  - simpl. apply IH.
  - simpl. rewrite advance_swap. reflexivity.
  - rewrite IH1. apply IH2.
Qed.

Lemma Sequential_perm (l l' : list Z) :
  Permutation l l' -> Sequential d l = Sequential d l'.
Proof.
  intros H. unfold Sequential, worker.
  rewrite (fold_advance_perm l l' H). reflexivity.
Qed.

End OrderInsensitive.

Lemma int4larger_comm (x y : Z) : int4larger x y = int4larger y x.
Proof.
  unfold int4larger.
  destruct (Z.gtb_spec x y), (Z.gtb_spec y x); lia.
Qed.

Lemma int4larger_swap (s x y : Z) :
  int4larger (int4larger s x) y = int4larger (int4larger s y) x.
Proof.
  unfold int4larger.
  destruct (Z.gtb_spec s x), (Z.gtb_spec s y);
    repeat match goal with
           | |- context [?a >? ?b] => destruct (Z.gtb_spec a b)
           end; lia.
Qed.

(** C6: for the MAX aggregates as registered (2116 with int4larger, 2115
    with int8larger: a sort operator, no final function, no initial value,
    so that the first input seeds the state), folding the inputs
    3,1,4,1,5,9,2,6 delivered in any order finalizes to 9. *)
Theorem max_any_delivery_order :
  forall rows : list Z,
    Permutation [3; 1; 4; 1; 5; 9; 2; 6] rows ->
    run_sequential 2116 rows = Result (Some 9)
    /\ run_sequential 2115 rows = Result (Some 9).
Proof.
  intros rows Hperm.
  rewrite (run_sequential_max 2116 rows (or_intror eq_refl)).
  rewrite (run_sequential_max 2115 rows (or_introl eq_refl)).
  rewrite <- (Sequential_perm max_def int4larger_comm int4larger_swap _ _ Hperm).
  split; reflexivity.
Qed.

Lemma max_any_delivery_order_witness :
  Permutation [3; 1; 4; 1; 5; 9; 2; 6] [9; 6; 5; 4; 3; 2; 1; 1]
  /\ run_sequential 2116 [9; 6; 5; 4; 3; 2; 1; 1] = Result (Some 9)
  /\ run_sequential 2115 [9; 6; 5; 4; 3; 2; 1; 1] = Result (Some 9).
Proof.
  assert (Hperm : Permutation [3; 1; 4; 1; 5; 9; 2; 6] [9; 6; 5; 4; 3; 2; 1; 1]).
  { apply Permutation_sym.
    apply (Permutation_cons_app [3; 1; 4; 1; 5] [2; 6] 9). simpl.
    apply (Permutation_cons_app [3; 1; 4; 1; 5; 2] [] 6). simpl.
    apply (Permutation_cons_app [3; 1; 4; 1] [2] 5). simpl.
    apply (Permutation_cons_app [3; 1] [1; 2] 4). simpl.
    apply perm_skip.
    apply (Permutation_cons_app [1; 1] [] 2). simpl.
    apply Permutation_refl. }
  split; [exact Hperm | exact (max_any_delivery_order _ Hperm)].
Defined.

(** * Further properties of the header *)

(** ** The key of the relation *)






(** ** Kinds and mandatory members *)

Lemma rows_kind_known : forallb kind_known catalog = true.
Proof. vm_compute. reflexivity. Qed.

Lemma rows_mandatory_slots : forallb mandatory_slots catalog = true.
Proof. vm_compute. reflexivity. Qed.

Lemma rows_internal_state : forallb internal_state_shape catalog = true.
Proof. vm_compute. reflexivity. Qed.

Lemma rows_finalextra : forallb finalextra_shape catalog = true.
Proof. vm_compute. reflexivity. Qed.

Lemma rows_sortop : forallb sortop_shape catalog = true.
Proof. vm_compute. reflexivity. Qed.

Lemma rows_space : forallb space_shape catalog = true.
Proof. vm_compute. reflexivity. Qed.

Lemma rows_ordered_set_shape : forallb ordered_set_shape catalog = true.
Proof. vm_compute. reflexivity. Qed.

Lemma rows_partial_transfer : forallb partial_transfer_shape catalog = true.
Proof. vm_compute. reflexivity. Qed.

Lemma rows_moving_mode : forallb moving_mode_shape catalog = true.
Proof. vm_compute. reflexivity. Qed.

Lemma rows_fit_struct : forallb fits_struct catalog = true.
Proof. vm_compute. reflexivity. Qed.

Lemma has_text_false (t : option string) : has_text t = false -> t = None.
Proof. destruct t; [discriminate | reflexivity]. Qed.

Lemma text_eqb_eq (a b : option string) : text_eqb a b = true -> a = b.
Proof.
  destruct a as [x |], b as [y |]; simpl; try discriminate; try reflexivity.
  intros H. apply String.eqb_eq in H. congruence.
Qed.

(** X3: every row of the catalog has one of the three AGGKIND_ values as its
    kind, and on these rows the macro AGGKIND_IS_ORDERED_SET holds exactly of
    the ordered-set and the hypothetical-set aggregates. *)
Theorem kinds_are_symbolic_values :
  forall r, In r catalog ->
    (aggkind r = AGGKIND_NORMAL \/ aggkind r = AGGKIND_ORDERED_SET
     \/ aggkind r = AGGKIND_HYPOTHETICAL)
    /\ (AGGKIND_IS_ORDERED_SET (aggkind r) = true <->
          aggkind r = AGGKIND_ORDERED_SET
          \/ aggkind r = AGGKIND_HYPOTHETICAL).
Proof.
  intros r Hin.
  pose proof (every_row _ rows_kind_known r Hin) as H.
  unfold kind_known in H. unfold AGGKIND_IS_ORDERED_SET.
  destruct (Ascii.eqb_spec (aggkind r) AGGKIND_NORMAL) as [Hn | Hn],
    (Ascii.eqb_spec (aggkind r) AGGKIND_ORDERED_SET) as [Ho | Ho],
    (Ascii.eqb_spec (aggkind r) AGGKIND_HYPOTHETICAL) as [Hh | Hh];
    simpl in H; try discriminate;
    try (rewrite Hn in Ho; discriminate Ho);
    try (rewrite Hn in Hh; discriminate Hh);
    split; try tauto;
    split; try tauto; try discriminate;
    intros [Hx | Hx]; rewrite Hn in Hx; discriminate Hx.
Qed.

Lemma kinds_are_symbolic_values_witness :
  In rank_row catalog
  /\ ((aggkind rank_row = AGGKIND_NORMAL
       \/ aggkind rank_row = AGGKIND_ORDERED_SET
       \/ aggkind rank_row = AGGKIND_HYPOTHETICAL)
      /\ (AGGKIND_IS_ORDERED_SET (aggkind rank_row) = true <->
            aggkind rank_row = AGGKIND_ORDERED_SET
            \/ aggkind rank_row = AGGKIND_HYPOTHETICAL)).
Proof.
  assert (Hin : In rank_row catalog)
    by (apply (lookup_In 3986); reflexivity).
  split; [exact Hin | exact (kinds_are_symbolic_values rank_row Hin)].
Defined.

(** X4: every row of the catalog names a transition function and a
    transition state type: these two members are never "none". *)
Theorem transition_is_mandatory :
  forall r, In r catalog ->
    present (aggtransfn r) /\ aggtranstype r <> InvalidOid.
Proof.
  intros r Hin.
  pose proof (every_row _ rows_mandatory_slots r Hin) as H.
  unfold mandatory_slots in H.
  destruct (has_procP (aggtransfn r)),
    (Z.eqb_spec (aggtranstype r) InvalidOid); simpl in H; try discriminate.
  split; assumption.
Qed.

Lemma transition_is_mandatory_witness :
  In array_agg_row catalog
  /\ present (aggtransfn array_agg_row)
  /\ aggtranstype array_agg_row <> InvalidOid.
Proof.
  assert (Hin : In array_agg_row catalog)
    by (apply (lookup_In 2335); reflexivity).
  split; [exact Hin | exact (transition_is_mandatory array_agg_row Hin)].
Defined.

(** X5: in every row of the catalog, a state of the opaque type "internal"
    comes with a final function and without an initial-value literal; the
    same holds of the moving state with the moving final function and the
    moving initial value. *)
Theorem internal_state_needs_final :
  forall r, In r catalog ->
    (aggtranstype r = INTERNALOID ->
     present (aggfinalfn r) /\ agginitval r = None)
    /\ (aggmtranstype r = INTERNALOID ->
        present (aggmfinalfn r) /\ aggminitval r = None).
Proof.
  intros r Hin.
  pose proof (every_row _ rows_internal_state r Hin) as H.
  unfold internal_state_shape in H.
  apply andb_true_iff in H. destruct H as [Hplain Hmoving].
  split; intros Ht.
  - apply Z.eqb_eq in Ht. rewrite Ht in Hplain. simpl in Hplain.
    apply andb_true_iff in Hplain. destruct Hplain as [Hf Hi].
    split.
    + destruct (has_procP (aggfinalfn r)); [assumption | discriminate].
    + apply has_text_false. apply negb_true_iff. exact Hi.
  - apply Z.eqb_eq in Ht. rewrite Ht in Hmoving. simpl in Hmoving.
    apply andb_true_iff in Hmoving. destruct Hmoving as [Hf Hi].
    split.
    + destruct (has_procP (aggmfinalfn r)); [assumption | discriminate].
    + apply has_text_false. apply negb_true_iff. exact Hi.
Qed.

Lemma internal_state_needs_final_witness :
  In bool_and_row catalog
  /\ ((aggtranstype bool_and_row = INTERNALOID ->
       present (aggfinalfn bool_and_row) /\ agginitval bool_and_row = None)
      /\ (aggmtranstype bool_and_row = INTERNALOID ->
          present (aggmfinalfn bool_and_row)
          /\ aggminitval bool_and_row = None)).
Proof.
  assert (Hin : In bool_and_row catalog)
    by (apply (lookup_In 2517); reflexivity).
  split; [exact Hin | exact (internal_state_needs_final bool_and_row Hin)].
Defined.

(** X6: in every row of the catalog, aggfinalextra is set only where a final
    function is present and the state type is "internal"; aggmfinalextra is
    set in no row. *)
Theorem finalextra_only_with_final :
  forall r, In r catalog ->
    (aggfinalextra r = true ->
     present (aggfinalfn r) /\ aggtranstype r = INTERNALOID)
    /\ aggmfinalextra r = false.
Proof.
  intros r Hin.
  pose proof (every_row _ rows_finalextra r Hin) as H.
  unfold finalextra_shape in H.
  apply andb_true_iff in H. destruct H as [Hextra Hm].
  split; [| apply negb_true_iff; exact Hm].
  intros He. rewrite He in Hextra. simpl in Hextra.
  destruct (has_procP (aggfinalfn r)),
    (Z.eqb_spec (aggtranstype r) INTERNALOID);
    simpl in Hextra; try discriminate.
  split; assumption.
Qed.

Lemma finalextra_only_with_final_witness :
  In array_agg_row catalog
  /\ ((aggfinalextra array_agg_row = true ->
       present (aggfinalfn array_agg_row)
       /\ aggtranstype array_agg_row = INTERNALOID)
      /\ aggmfinalextra array_agg_row = false).
Proof.
  assert (Hin : In array_agg_row catalog)
    by (apply (lookup_In 2335); reflexivity).
  split; [exact Hin | exact (finalextra_only_with_final array_agg_row Hin)].
Defined.

(** ** Sort operators, space estimates, ordered-set rows *)

(** X7: every row of the catalog with a sort operator is a Normal aggregate
    without a final function and without an initial value, whose combine
    function is its transition function. *)
Theorem sortop_rows_are_plain_folds :
  forall r, In r catalog -> aggsortop r <> InvalidOid ->
    aggkind r = AGGKIND_NORMAL
    /\ absent (aggfinalfn r)
    /\ agginitval r = None
    /\ aggcombinefn r = aggtransfn r.
Proof.
  intros r Hin Hop.
  pose proof (every_row _ rows_sortop r Hin) as H.
  unfold sortop_shape in H.
  destruct (Z.eqb_spec (aggsortop r) InvalidOid) as [Hz | _];
    [contradiction |].
  simpl in H.
  repeat (apply andb_true_iff in H; destruct H as [H ?]).
  repeat split.
  - apply Ascii.eqb_eq. assumption.
  - apply not_present_absent.
    destruct (has_procP (aggfinalfn r)); [discriminate | assumption].
  - apply has_text_false. apply negb_true_iff. assumption.
  - apply String.eqb_eq. assumption.
Qed.

Lemma sortop_rows_are_plain_folds_witness :
  In int4_max_row catalog
  /\ aggsortop int4_max_row <> InvalidOid
  /\ aggkind int4_max_row = AGGKIND_NORMAL
  /\ absent (aggfinalfn int4_max_row)
  /\ agginitval int4_max_row = None
  /\ aggcombinefn int4_max_row = aggtransfn int4_max_row.
Proof.
  assert (Hin : In int4_max_row catalog)
    by (apply (lookup_In 2116); reflexivity).
  assert (Hop : aggsortop int4_max_row <> InvalidOid) by discriminate.
  split; [exact Hin |]. split; [exact Hop |].
  exact (sortop_rows_are_plain_folds int4_max_row Hin Hop).
Defined.

(** X8: in every row of the catalog the two space estimates are not
    negative, and an estimate other than 0 (the default) is given only for a
    state of type "internal". *)
Theorem space_estimates_only_for_internal :
  forall r, In r catalog ->
    0 <= aggtransspace r /\ 0 <= aggmtransspace r
    /\ (aggtransspace r <> 0 -> aggtranstype r = INTERNALOID)
    /\ (aggmtransspace r <> 0 -> aggmtranstype r = INTERNALOID).
Proof.
  intros r Hin.
  pose proof (every_row _ rows_space r Hin) as H.
  unfold space_shape in H.
  repeat (apply andb_true_iff in H; destruct H as [H ?]).
  repeat split.
  - apply Z.leb_le. assumption.
  - apply Z.leb_le. assumption.
  - intros Hs.
    destruct (Z.eqb_spec (aggtransspace r) 0); [contradiction |].
    apply Z.eqb_eq. assumption.
  - intros Hs.
    destruct (Z.eqb_spec (aggmtransspace r) 0); [contradiction |].
    apply Z.eqb_eq. assumption.
Qed.

Lemma space_estimates_only_for_internal_witness :
  In bool_and_row catalog
  /\ 0 <= aggtransspace bool_and_row /\ 0 <= aggmtransspace bool_and_row
  /\ (aggtransspace bool_and_row <> 0 ->
      aggtranstype bool_and_row = INTERNALOID)
  /\ (aggmtransspace bool_and_row <> 0 ->
      aggmtranstype bool_and_row = INTERNALOID).
Proof.
  assert (Hin : In bool_and_row catalog)
    by (apply (lookup_In 2517); reflexivity).
  split;
    [exact Hin | exact (space_estimates_only_for_internal bool_and_row Hin)].
Defined.

(** X9: every ordered-set or hypothetical-set row of the catalog has a final
    function, a state of type "internal", no sort operator and no initial
    value; an ordered-set row uses ordered_set_transition, a
    hypothetical-set row uses ordered_set_transition_multi and passes the
    extra arguments to its final function. *)
Theorem ordered_set_rows_buffer_their_input :
  forall r, In r catalog -> AGGKIND_IS_ORDERED_SET (aggkind r) = true ->
    present (aggfinalfn r)
    /\ aggtranstype r = INTERNALOID
    /\ aggsortop r = InvalidOid
    /\ agginitval r = None
    /\ (aggkind r = AGGKIND_ORDERED_SET ->
        aggtransfn r = "ordered_set_transition")
    /\ (aggkind r = AGGKIND_HYPOTHETICAL ->
        aggtransfn r = "ordered_set_transition_multi"
        /\ aggfinalextra r = true).
Proof.
  intros r Hin Hkind.
  pose proof (every_row _ rows_ordered_set_shape r Hin) as H.
  unfold ordered_set_shape in H. rewrite Hkind in H.
  apply andb_true_iff in H. destruct H as [H Hall].
  apply andb_true_iff in H. destruct H as [Ho Hh].
  simpl in Hall.
  apply andb_true_iff in Hall. destruct Hall as [Hall Hinit].
  apply andb_true_iff in Hall. destruct Hall as [Hall Hsort].
  apply andb_true_iff in Hall. destruct Hall as [Hfinal Htype].
  split; [destruct (has_procP (aggfinalfn r)); [assumption | discriminate] |].
  split; [apply Z.eqb_eq; exact Htype |].
  split; [apply Z.eqb_eq; exact Hsort |].
  split; [apply has_text_false; apply negb_true_iff; exact Hinit |].
  split.
  - intros Hk. rewrite Hk in Ho. simpl in Ho.
    apply String.eqb_eq. exact Ho.
  - intros Hk. rewrite Hk in Hh. simpl in Hh.
    apply andb_true_iff in Hh. destruct Hh as [Hfn Hextra].
    split; [apply String.eqb_eq; exact Hfn | exact Hextra].
Qed.

Lemma ordered_set_rows_buffer_their_input_witness :
  In rank_row catalog
  /\ AGGKIND_IS_ORDERED_SET (aggkind rank_row) = true
  /\ present (aggfinalfn rank_row)
  /\ aggtranstype rank_row = INTERNALOID
  /\ aggsortop rank_row = InvalidOid
  /\ agginitval rank_row = None
  /\ (aggkind rank_row = AGGKIND_ORDERED_SET ->
      aggtransfn rank_row = "ordered_set_transition")
  /\ (aggkind rank_row = AGGKIND_HYPOTHETICAL ->
      aggtransfn rank_row = "ordered_set_transition_multi"
      /\ aggfinalextra rank_row = true).
Proof.
  assert (Hin : In rank_row catalog)
    by (apply (lookup_In 3986); reflexivity).
  assert (Hkind : AGGKIND_IS_ORDERED_SET (aggkind rank_row) = true)
    by reflexivity.
  split; [exact Hin |]. split; [exact Hkind |].
  exact (ordered_set_rows_buffer_their_input rank_row Hin Hkind).
Defined.

(** ** Partial aggregation and moving mode *)

(** X10: in every row of the catalog a serialize function comes with a
    combine function, and a combine function over a state of type
    "internal" comes with the serialize and deserialize functions needed to
    hand that state over. *)
Theorem internal_combine_iff_serial :
  forall r, In r catalog ->
    (present (aggserialfn r) -> present (aggcombinefn r))
    /\ (aggtranstype r = INTERNALOID -> present (aggcombinefn r) ->
        present (aggserialfn r) /\ present (aggdeserialfn r)).
Proof.
  intros r Hin.
  pose proof (every_row _ rows_partial_transfer r Hin) as H.
  unfold partial_transfer_shape in H.
  destruct (has_procP (aggserialfn r)), (has_procP (aggdeserialfn r)),
    (has_procP (aggcombinefn r)),
    (Z.eqb_spec (aggtranstype r) INTERNALOID);
    simpl in H; try discriminate; split; intros; try tauto.
Qed.

Lemma internal_combine_iff_serial_witness :
  In int8_avg_row catalog
  /\ ((present (aggserialfn int8_avg_row) ->
       present (aggcombinefn int8_avg_row))
      /\ (aggtranstype int8_avg_row = INTERNALOID ->
          present (aggcombinefn int8_avg_row) ->
          present (aggserialfn int8_avg_row)
          /\ present (aggdeserialfn int8_avg_row))).
Proof.
  assert (Hin : In int8_avg_row catalog)
    by (apply (lookup_In 2100); reflexivity).
  split; [exact Hin | exact (internal_combine_iff_serial int8_avg_row Hin)].
Defined.

(** X11: in every row of the catalog that declares a moving transition
    function, either that function is the plain transition function, and
    then the moving state type, space estimate, initial value and final
    function repeat the plain ones, or it is another function, and then the
    moving state type differs from the plain one and a moving final function
    is present. *)
Theorem moving_mode_reuses_or_converts :
  forall r, In r catalog -> present (aggmtransfn r) ->
    (aggmtransfn r = aggtransfn r ->
     aggmtranstype r = aggtranstype r
     /\ aggmtransspace r = aggtransspace r
     /\ aggminitval r = agginitval r
     /\ aggmfinalfn r = aggfinalfn r)
    /\ (aggmtransfn r <> aggtransfn r ->
        aggmtranstype r <> aggtranstype r /\ present (aggmfinalfn r)).
Proof.
  intros r Hin Hm.
  pose proof (every_row _ rows_moving_mode r Hin) as H.
  unfold moving_mode_shape in H.
  destruct (has_procP (aggmtransfn r)); [| contradiction].
  simpl in H.
  destruct (String.eqb_spec (aggmtransfn r) (aggtransfn r)) as [Heq | Hne].
  - split; [| intros Hx; contradiction].
    intros _.
    apply andb_true_iff in H. destruct H as [H Hfinal].
    apply andb_true_iff in H. destruct H as [H Hinit].
    apply andb_true_iff in H. destruct H as [Htype Hspace].
    split; [apply Z.eqb_eq; exact Htype |].
    split; [apply Z.eqb_eq; exact Hspace |].
    split; [apply text_eqb_eq; exact Hinit | apply String.eqb_eq; exact Hfinal].
  - split; [intros Hx; contradiction |].
    intros _.
    apply andb_true_iff in H. destruct H as [Htype Hfinal].
    split.
    + apply Z.eqb_neq. apply negb_true_iff. exact Htype.
    + destruct (has_procP (aggmfinalfn r)); [assumption | discriminate].
Qed.

Lemma moving_mode_reuses_or_converts_witness :
  In bool_and_row catalog
  /\ present (aggmtransfn bool_and_row)
  /\ (aggmtransfn bool_and_row = aggtransfn bool_and_row ->
      aggmtranstype bool_and_row = aggtranstype bool_and_row
      /\ aggmtransspace bool_and_row = aggtransspace bool_and_row
      /\ aggminitval bool_and_row = agginitval bool_and_row
      /\ aggmfinalfn bool_and_row = aggfinalfn bool_and_row)
  /\ (aggmtransfn bool_and_row <> aggtransfn bool_and_row ->
      aggmtranstype bool_and_row <> aggtranstype bool_and_row
      /\ present (aggmfinalfn bool_and_row)).
Proof.
  assert (Hin : In bool_and_row catalog)
    by (apply (lookup_In 2517); reflexivity).
  assert (Hm : present (aggmtransfn bool_and_row)) by discriminate.
  split; [exact Hin |]. split; [exact Hm |].
  exact (moving_mode_reuses_or_converts bool_and_row Hin Hm).
Defined.

(** ** Rows that repeat other rows *)






(** ** The layout of the tuple *)

(** X14: the Anum_ constant of every member of FormData_pg_aggregate is the
    member's position in the struct, counted from 1, and the last position
    is Natts_pg_aggregate. *)
Theorem attribute_numbers_follow_layout :
  forall (i : nat) (ty : ctype) (name : string),
    nth_error columns i = Some (ty, name) ->
    attnum name = Some (Z.of_nat i + 1)
    /\ 1 <= Z.of_nat i + 1 <= Natts_pg_aggregate
    /\ Z.of_nat (List.length columns) = Natts_pg_aggregate.
Proof.
  intros i ty name H.
  repeat (destruct i as [| i];
          [simpl in H; injection H as <- <-;
           split; [reflexivity | split; [split; discriminate | reflexivity]] |
           simpl in H]).
  destruct i; discriminate H.
Qed.

Lemma attribute_numbers_follow_layout_witness :
  attnum "aggsortop" = Some (Z.of_nat 13 + 1)
  /\ 1 <= Z.of_nat 13 + 1 <= Natts_pg_aggregate
  /\ Z.of_nat (List.length columns) = Natts_pg_aggregate.
Proof.
  exact (attribute_numbers_follow_layout 13 T_Oid "aggsortop" eq_refl).
Defined.

(** X15: the variable-length members come last: a member of
    FormData_pg_aggregate has type text exactly when it stands after the
    fixed-length members, behind the CATALOG_VARLEN guard. *)
Theorem variable_length_members_last :
  forall (i : nat) (ty : ctype) (name : string),
    nth_error columns i = Some (ty, name) ->
    (ty = T_text <-> (fixed_length_columns <= i)%nat).
Proof.
  intros i ty name H. unfold fixed_length_columns.
  repeat (destruct i as [| i];
          [simpl in H; injection H as <- <-;
           split; [try discriminate; intros _; lia | try reflexivity; lia] |
           simpl in H]).
  destruct i; discriminate H.
Qed.

Lemma variable_length_members_last_witness :
  T_text = T_text <-> (fixed_length_columns <= 18)%nat.
Proof.
  exact (variable_length_members_last 18 T_text "agginitval" eq_refl).
Defined.

(* Decide a string comparison against a literal that has become known. *)
Ltac names :=
  repeat match goal with
    | |- context [String.eqb ?a ?b] =>
        destruct (String.eqb_spec a b); [subst |]
    end.

(* Find an element in a closed list. *)
Ltac member := simpl; repeat first [left; reflexivity | right].

(** X16: a member of FormData_pg_aggregate has a FOREIGN_KEY declaration
    exactly when its type is regproc or Oid; the regproc members, and only
    they, refer to pg_proc. *)
Theorem foreign_keys_cover_references :
  forall name : string,
    (references name <> None <->
       In (T_regproc, name) columns \/ In (T_Oid, name) columns)
    /\ (references name = Some "pg_proc" <-> In (T_regproc, name) columns).
Proof.
  intros name. split; split.
  - unfold references, foreign_keys, assoc. names; intros Hr;
      first [ exfalso; apply Hr; reflexivity
            | left; solve [member]
            | right; solve [member] ].
  - intros [Hin | Hin]; simpl in Hin;
      repeat (destruct Hin as [Hin | Hin];
              [first [discriminate Hin | injection Hin as <-; discriminate] |]);
      contradiction.
  - unfold references, foreign_keys, assoc. names; intros Hr;
      first [ discriminate Hr | solve [member] ].
  - intros Hin; simpl in Hin;
      repeat (destruct Hin as [Hin | Hin];
              [first [discriminate Hin | injection Hin as <-; reflexivity] |]);
      contradiction.
Qed.

Lemma foreign_keys_cover_references_example :
  references "aggsortop" = Some "pg_operator"
  /\ references "aggtranstype" = Some "pg_type"
  /\ references "aggkind" = None
  /\ references "agginitval" = None.
Proof. repeat split. Qed.

Lemma foreign_keys_declared_once : NoDup (map fst foreign_keys).
Proof.
  unfold foreign_keys. simpl.
  repeat (constructor;
          [simpl; intros Hin;
           repeat (destruct Hin as [Hin | Hin]; [discriminate Hin |]);
           contradiction |]).
  constructor.
Qed.

(** X17: every row of the catalog fits the C types of the struct members:
    the identifiers are unsigned 32-bit values, aggfnoid is not InvalidOid,
    aggnumdirectargs is an int16 and the space estimates are int32. *)
Theorem rows_fit_member_types :
  forall r, In r catalog ->
    0 < aggfnoid r < 2 ^ 32
    /\ - 2 ^ 15 <= aggnumdirectargs r < 2 ^ 15
    /\ 0 <= aggsortop r < 2 ^ 32
    /\ 0 <= aggtranstype r < 2 ^ 32
    /\ - 2 ^ 31 <= aggtransspace r < 2 ^ 31
    /\ 0 <= aggmtranstype r < 2 ^ 32
    /\ - 2 ^ 31 <= aggmtransspace r < 2 ^ 31.
Proof.
  intros r Hin.
  pose proof (every_row _ rows_fit_struct r Hin) as H.
  assert (Hkey : aggfnoid r <> 0).
  { intros Hz.
    assert (Hnone : lookupAggregate 0 = None) by reflexivity.
    pose proof (find_none _ _ Hnone r Hin) as Hk. simpl in Hk.
    rewrite Hz in Hk. discriminate Hk. }
  unfold fits_struct, fits_uint32, fits_int16, fits_int32 in H.
  repeat match type of H with
         | _ && _ = true =>
             let H' := fresh "Hb" in
             apply andb_true_iff in H; destruct H as [H H']
         end.
  repeat match goal with
         | Hb : _ && _ = true |- _ =>
             let H' := fresh "Hc" in
             apply andb_true_iff in Hb; destruct Hb as [Hb H']
         end.
  repeat match goal with
         | Hb : (_ <=? _) = true |- _ => apply Z.leb_le in Hb
         | Hb : (_ <? _) = true |- _ => apply Z.ltb_lt in Hb
         end.
  lia.
Qed.

Lemma rows_fit_member_types_witness :
  In int8_avg_row catalog
  /\ 0 < aggfnoid int8_avg_row < 2 ^ 32
  /\ - 2 ^ 15 <= aggnumdirectargs int8_avg_row < 2 ^ 15
  /\ 0 <= aggsortop int8_avg_row < 2 ^ 32
  /\ 0 <= aggtranstype int8_avg_row < 2 ^ 32
  /\ - 2 ^ 31 <= aggtransspace int8_avg_row < 2 ^ 31
  /\ 0 <= aggmtranstype int8_avg_row < 2 ^ 32
  /\ - 2 ^ 31 <= aggmtransspace int8_avg_row < 2 ^ 31.
Proof.
  assert (Hin : In int8_avg_row catalog)
    by (apply (lookup_In 2100); reflexivity).
  split; [exact Hin | exact (rows_fit_member_types int8_avg_row Hin)].
Defined.
